(** * reminder-bot: a shallow embedding of [src/bot.py]

    The bot receives a free-text message, deletes it, asks a completion
    service to polish it into reminders separated by a [---] line, and sends
    one message per reminder with two inline buttons; pressing a button
    deletes the message that carries it.  A tiny HTTP server answers
    [GET /health].

    Layout of the development:
    - [PyStr]       Python [str] values and the methods the bot calls on them;
    - [PyExc]       exceptions, and results that are a value or a raise;
    - [PyDatetime]  the part of [datetime] used by [get_calendar_context];
    - [Bot]         the functions of [bot.py], in a small effect monad whose
                    trace records every call that leaves the process;
    - the lemmas, one section per subject. *)

From Stdlib Require Import List ZArith NArith Lia Bool String Ascii.
From Stdlib Require QArith.
Import ListNotations.

Set Implicit Arguments.

(* ------------------------------------------------------------------ *)
(** * Python strings *)

Module PyStr.

(** A Python [str] is a sequence of Unicode code points. *)
Definition codepoint := N.
Definition str := list codepoint.

(** An ASCII literal of the source, as a [str]. *)
Definition lit (s : string) : str :=
  map N_of_ascii (list_ascii_of_string s).

Definition str_eqb (a b : str) : bool :=
  if list_eq_dec N.eq_dec a b then true else false.

(** [bool(s)] for a [str]: the empty string is falsy. *)
Definition truthy (s : str) : bool :=
  match s with [] => false | _ :: _ => true end.

(** [Py_UNICODE_ISSPACE], the test [str.strip()] applies to each character:
    the ASCII table of [unicodeobject.c] below 128 and
    [_PyUnicode_IsWhitespace] above. *)
Definition Py_UNICODE_ISSPACE (c : codepoint) : bool :=
  (((9 <=? c) && (c <=? 13)) || ((28 <=? c) && (c <=? 32))
   || (c =? 133) || (c =? 160) || (c =? 5760)
   || ((8192 <=? c) && (c <=? 8202))
   || (c =? 8232) || (c =? 8233) || (c =? 8239) || (c =? 8287)
   || (c =? 12288))%N.

(** [s.lstrip()], [s.rstrip()] and [s.strip()] with no argument. *)
Fixpoint lstrip (s : str) : str :=
  match s with
  | [] => []
  | c :: s' => if Py_UNICODE_ISSPACE c then lstrip s' else s
  end.

Definition rstrip (s : str) : str := rev (lstrip (rev s)).

Definition strip (s : str) : str := rstrip (lstrip s).

(** [s.removeprefix(p)] when [s.startswith(p)], and [None] otherwise. *)
Fixpoint match_prefix (p s : str) : option str :=
  match p, s with
  | [], _ => Some s
  | a :: p', b :: s' => if (a =? b)%N then match_prefix p' s' else None
  | _ :: _, [] => None
  end.

(** [s.split(sep)] for a non-empty [sep]: the separators are found left to
    right and do not overlap; the result always has at least one piece.
    The fuel is the length of [s], which bounds the number of steps. *)
Fixpoint split_scan (fuel : nat) (sep s : str) : list str :=
  match fuel with
  | O => [s]
  | S fuel' =>
    match s with
    | [] => [[]]
    | c :: s' =>
      match match_prefix sep s with
      | Some rest => [] :: split_scan fuel' sep rest
      | None =>
        match split_scan fuel' sep s' with
        | p :: ps => (c :: p) :: ps
        | [] => [[c]]
        end
      end
    end
  end.

Definition split (sep s : str) : list str :=
  split_scan (List.length s) sep s.

(** [sep.join(pieces)]. *)
Fixpoint join (sep : str) (pieces : list str) : str :=
  match pieces with
  | [] => []
  | [p] => p
  | p :: ps => p ++ sep ++ join sep ps
  end.


(** A string is whitespace-only when every character of it is whitespace
    (the empty string included). *)
Definition whitespace_only (s : str) : bool := forallb Py_UNICODE_ISSPACE s.


(** The texts made of [---] delimiters and whitespace only. *)
Inductive delimiters_and_whitespace : str -> Prop :=
| dw_empty : delimiters_and_whitespace []
| dw_space c s :
    Py_UNICODE_ISSPACE c = true ->
    delimiters_and_whitespace s -> delimiters_and_whitespace (c :: s)
| dw_delimiter s :
    delimiters_and_whitespace s ->
    delimiters_and_whitespace (lit "---" ++ s).

(** [s.startswith(p)]. *)
Definition starts_with (p s : str) : bool :=
  match match_prefix p s with Some _ => true | None => false end.

(** [sep in s] for a non-empty [sep]. *)
Fixpoint contains (sep s : str) : bool :=
  match s with
  | [] => false
  | _ :: s' => starts_with sep s || contains sep s'
  end.

(** No separator starts inside [p] when [p] is followed by [s]. *)
Definition no_match_inside (sep p s : str) : Prop :=
  forall a b, p = a ++ b -> b <> [] -> match_prefix sep (b ++ s) = None.

End PyStr.

(* ------------------------------------------------------------------ *)
(** * Python exceptions and results *)

Module PyExc.
Import PyStr.

(** An exception derived from [Exception]: its class name and [str(e)].
    [KeyboardInterrupt], [SystemExit] and task cancellation are not
    [Exception]s and are not modelled: they end the process or the task. *)
Record py_exception := PyException { exc_type : str; exc_str : str }.

(** What a call gives: a value, or a raised exception. *)
Inductive result (A : Type) : Type :=
| Returns (a : A)
| Raises (e : py_exception).
Arguments Returns {A} a.
Arguments Raises {A} e.

End PyExc.

(* ------------------------------------------------------------------ *)
(** * The [datetime] module, as far as the bot uses it *)

Module PyDatetime.
Import PyStr PyExc.
Local Open Scope Z_scope.

Definition MINYEAR : Z := 1.
Definition MAXYEAR : Z := 9999.

(** [date.max.toordinal()]. *)
Definition _MAXORDINAL : Z := 3652059.

Definition _DAYS_IN_MONTH : list Z :=
  [-1; 31; 28; 31; 30; 31; 30; 31; 31; 30; 31; 30; 31].

Definition _DAYS_BEFORE_MONTH : list Z :=
  [-1; 0; 31; 59; 90; 120; 151; 181; 212; 243; 273; 304; 334].

(** [table[i]] for an index inside the table. *)
Definition item (table : list Z) (i : Z) : Z := nth (Z.to_nat i) table 0.

Definition _is_leap (year : Z) : bool :=
  (year mod 4 =? 0) && (negb (year mod 100 =? 0) || (year mod 400 =? 0)).

Definition _days_before_year (year : Z) : Z :=
  let y := year - 1 in
  y * 365 + y / 4 - y / 100 + y / 400.

Definition _days_in_month (year month : Z) : Z :=
  if (month =? 2) && _is_leap year then 29 else item _DAYS_IN_MONTH month.

Definition _days_before_month (year month : Z) : Z :=
  item _DAYS_BEFORE_MONTH month
  + (if (month >? 2) && _is_leap year then 1 else 0).

Definition _ymd2ord (year month day : Z) : Z :=
  _days_before_year year + _days_before_month year month + day.

Definition _DI400Y : Z := 146097.
Definition _DI100Y : Z := 36524.
Definition _DI4Y : Z := 1461.

(** [_ord2ymd(n)]: the proleptic Gregorian date of ordinal [n], where
    ordinal 1 is 0001-01-01. *)
Definition _ord2ymd (n : Z) : Z * Z * Z :=
  let n := n - 1 in
  let n400 := n / _DI400Y in
  let n := n mod _DI400Y in
  let year := n400 * 400 + 1 in
  let n100 := n / _DI100Y in
  let n := n mod _DI100Y in
  let n4 := n / _DI4Y in
  let n := n mod _DI4Y in
  let n1 := n / 365 in
  let n := n mod 365 in
  let year := year + n100 * 100 + n4 * 4 + n1 in
  if (n1 =? 4) || (n100 =? 4) then (year - 1, 12, 31)
  else
    let leapyear := (n1 =? 3) && (negb (n4 =? 24) || (n100 =? 3)) in
    let month := Z.shiftr (n + 50) 5 in
    let preceding :=
      item _DAYS_BEFORE_MONTH month
      + (if (month >? 2) && leapyear then 1 else 0) in
    if preceding >? n then
      let month := month - 1 in
      let preceding :=
        preceding
        - (item _DAYS_IN_MONTH month
           + (if (month =? 2) && leapyear then 1 else 0)) in
      (year, month, n - preceding + 1)
    else (year, month, n - preceding + 1).

(** A [datetime] object (naive: the bot never attaches a time zone). *)
Record datetime := mk_datetime {
  year : Z; month : Z; day : Z;
  hour : Z; minute : Z; second : Z; microsecond : Z }.

(** The values the [datetime] constructor accepts. *)
Definition valid_date (d : datetime) : bool :=
  (MINYEAR <=? year d) && (year d <=? MAXYEAR)
  && (1 <=? month d) && (month d <=? 12)
  && (1 <=? day d) && (day d <=? _days_in_month (year d) (month d)).

Definition toordinal (d : datetime) : Z :=
  _ymd2ord (year d) (month d) (day d).

(** [d.weekday()]: Monday is 0 and Sunday is 6. *)
Definition weekday (d : datetime) : Z := (toordinal d + 6) mod 7.

(** [d + timedelta(days=days)]: the date moves by whole days through its
    ordinal and the time of day is kept; a result outside
    [date.min .. date.max] raises [OverflowError]. *)
Definition add_days (d : datetime) (days : Z) : result datetime :=
  let o := toordinal d + days in
  if (0 <? o) && (o <=? _MAXORDINAL) then
    let '(y, m, dd) := _ord2ymd o in
    Returns (mk_datetime y m dd (hour d) (minute d) (second d) (microsecond d))
  else Raises (PyException (lit "OverflowError") (lit "date value out of range")).

(** [d - timedelta(days=days)] is [d + timedelta(days=-days)]. *)
Definition sub_days (d : datetime) (days : Z) : result datetime :=
  add_days d (- days).

(** The names [strftime] uses in the C locale, which the process keeps
    for [LC_TIME] since the bot never calls [setlocale]. *)
Definition day_name : list string :=
  ["Monday"; "Tuesday"; "Wednesday"; "Thursday"; "Friday"; "Saturday";
   "Sunday"]%string.

Definition month_name : list string :=
  [""; "January"; "February"; "March"; "April"; "May"; "June"; "July";
   "August"; "September"; "October"; "November"; "December"]%string.

Definition digit (n : Z) : codepoint := Z.to_N (48 + n mod 10).

(** One conversion of [strftime]: [%A] full weekday name, [%B] full month
    name, [%d] day of the month on two digits, [%Y] year on four digits
    (0001 .. 9999, as the [datetime] documentation gives it), [%%] a
    percent sign.  The bot uses no other. *)
Definition directive (c : codepoint) (d : datetime) : str :=
  if (c =? 65)%N then
    lit (nth (Z.to_nat (weekday d)) day_name ""%string)
  else if (c =? 66)%N then
    lit (nth (Z.to_nat (month d)) month_name ""%string)
  else if (c =? 100)%N then
    [digit (day d / 10); digit (day d)]
  else if (c =? 89)%N then
    [digit (year d / 1000); digit (year d / 100); digit (year d / 10);
     digit (year d)]
  else if (c =? 37)%N then [37%N]
  else [37%N; c].

(** [d.strftime(fmt)]. *)
Fixpoint strftime (d : datetime) (fmt : str) : str :=
  match fmt with
  | [] => []
  | c :: rest =>
    if (c =? 37)%N then
      match rest with
      | [] => [c]
      | k :: rest' => directive k d ++ strftime d rest'
      end
    else c :: strftime d rest
  end.

(** The second half of [_ord2ymd], from the 0-based day of the year;
    named for the proofs. *)
Definition month_and_day (leapyear : bool) (n : Z) : Z * Z :=
  let month := Z.shiftr (n + 50) 5 in
  let preceding :=
    item _DAYS_BEFORE_MONTH month
    + (if (month >? 2) && leapyear then 1 else 0) in
  if preceding >? n then
    let month := month - 1 in
    let preceding :=
      preceding
      - (item _DAYS_IN_MONTH month
         + (if (month =? 2) && leapyear then 1 else 0)) in
    (month, n - preceding + 1)
  else (month, n - preceding + 1).

(** What [month_and_day] must give: a month, a day of that month, and
    the right number of days before it in the year. *)
Definition month_and_day_ok (leapyear : bool) (n : Z) : bool :=
  let '(m, d) := month_and_day leapyear n in
  (1 <=? m) && (m <=? 12) && (1 <=? d)
  && (d <=? (if (m =? 2) && leapyear then 29 else item _DAYS_IN_MONTH m))
  && (item _DAYS_BEFORE_MONTH m + (if (m >? 2) && leapyear then 1 else 0) + d
      =? n + 1).

End PyDatetime.

(* ------------------------------------------------------------------ *)
(** * The bot *)

Module Bot.
Import PyStr PyExc PyDatetime.

(** ** The objects exchanged with Telegram, the completion service and HTTP *)

Record MessageEntity := {
  entity_type : str; entity_offset : Z; entity_length : Z }.

(** A text message.  [message_text] is [message.text]; a message that
    carries no text has it empty (both are falsy for [filters.TEXT]). *)
Record Message := {
  message_id : Z; chat_id : Z; message_text : str;
  message_entities : list MessageEntity }.

Record CallbackQuery := {
  query_id : str;
  query_data : option str;
  query_message : option Message }.

(** [update.message] and [update.callback_query]; each is [None] when the
    update is of another kind. *)
Record Update := {
  update_message : option Message;
  update_callback_query : option CallbackQuery }.

Record InlineKeyboardButton := {
  button_text : str; callback_data : str }.

Definition InlineKeyboardMarkup := list (list InlineKeyboardButton).

Record ChatMessage := { role : str; content : str }.

Record CompletionRequest := {
  model : str;
  messages : list ChatMessage;
  temperature : QArith_base.Q;
  max_tokens : Z }.

(** [response.choices[i].message.content], which the service may leave
    [None]. *)
Record Choice := { choice_content : option str }.

Record ChatCompletion := { choices : list Choice }.

Record Request := { http_method : str; http_path : str }.

Record Response := { status : Z; body : str }.

(** ** Effects

    Every call that leaves the process, and every line logged at level
    ERROR, is an event.  The world fixes the clock and what each outside
    call gives back; the natural number is the count of outside calls the
    handler made before this one, so that two calls with the same
    arguments may have different fates. *)
Inductive event :=
| DeleteMessage (chat message : Z) (r : result unit)
| CreateCompletion (request : CompletionRequest) (r : result ChatCompletion)
| SendMessage (chat : Z) (text : str)
              (reply_markup : option InlineKeyboardMarkup) (r : result unit)
| AnswerCallbackQuery (query : str) (r : result unit)
| LogError (line : str).

Record world := {
  clock : datetime;
  bot_delete_message : nat -> Z -> Z -> result unit;
  chat_completions_create : nat -> CompletionRequest -> result ChatCompletion;
  bot_send_message :
    nat -> Z -> str -> option InlineKeyboardMarkup -> result unit;
  bot_answer_callback_query : nat -> str -> result unit }.

(** The outcome of running a piece of the program: the events it emitted,
    the number of outside calls made so far, and its result. *)
Record run (A : Type) := Run {
  trace : list event; calls : nat; outcome : result A }.

Definition M (A : Type) : Type := world -> nat -> run A.

Definition ret {A} (a : A) : M A := fun _ n => Run [] n (Returns a).

Definition raise {A} (e : py_exception) : M A := fun _ n => Run [] n (Raises e).

Definition bind {A B} (m : M A) (k : A -> M B) : M B := fun w n =>
  let r1 := m w n in
  match outcome r1 with
  | Returns a =>
    let r2 := k a w (calls r1) in
    Run (trace r1 ++ trace r2) (calls r2) (outcome r2)
  | Raises e => Run (trace r1) (calls r1) (Raises e)
  end.

(** [try: body  except Exception as e: handler(e)]. *)
Definition try_except {A} (body : M A) (handler : py_exception -> M A) : M A :=
  fun w n =>
  let r1 := body w n in
  match outcome r1 with
  | Returns a => r1
  | Raises e =>
    let r2 := handler e w (calls r1) in
    Run (trace r1 ++ trace r2) (calls r2) (outcome r2)
  end.

Notation "x <- m ;; k" := (bind m (fun x => k))
  (at level 61, m at next level, right associativity).
Notation "m ;;; k" := (bind m (fun _ => k))
  (at level 61, right associativity).

(** A value computed inside the process, which may raise. *)
Definition lift {A} (r : result A) : M A := fun _ n => Run [] n r.

(** [for x in xs: body(x)]. *)
Fixpoint for_each {A} (xs : list A) (body : A -> M unit) : M unit :=
  match xs with
  | [] => ret tt
  | x :: xs' => body x ;;; for_each xs' body
  end.

(** [obj.attr] where [obj] may be [None]. *)
Definition attribute {A} (obj : option A) (name : string) : M A :=
  match obj with
  | Some a => ret a
  | None =>
    raise (PyException (lit "AttributeError")
             (lit "'NoneType' object has no attribute '" ++ lit name ++ lit "'"))
  end.

Definition datetime_now : M datetime := fun w n => Run [] n (Returns (clock w)).

Definition logger_error (line : str) : M unit :=
  fun _ n => Run [LogError line] n (Returns tt).

Definition delete_message (chat message : Z) : M unit := fun w n =>
  let r := bot_delete_message w n chat message in
  Run [DeleteMessage chat message r] (S n) r.

Definition send_message (chat : Z) (text : str)
    (reply_markup : option InlineKeyboardMarkup) : M unit := fun w n =>
  let r := bot_send_message w n chat text reply_markup in
  Run [SendMessage chat text reply_markup r] (S n) r.

Definition answer (query : str) : M unit := fun w n =>
  let r := bot_answer_callback_query w n query in
  Run [AnswerCallbackQuery query r] (S n) r.

Definition create_completion (request : CompletionRequest) : M ChatCompletion :=
  fun w n =>
  let r := chat_completions_create w n request in
  Run [CreateCompletion request r] (S n) r.

(** Running a handler from a fresh call count. *)
Definition exec {A} (m : M A) (w : world) : run A := m w O.

(** ** [get_calendar_context] *)

Definition newline : str := [10%N].

(** [range(7)]. *)
Definition range7 : list Z := [0; 1; 2; 3; 4; 5; 6]%Z.

(** The line the loops add for one day:
    [f"  {day.strftime('%A')}: {day.strftime('%B %d, %Y')}\n"]. *)
Definition day_line (day : datetime) : str :=
  lit "  " ++ strftime day (lit "%A") ++ lit ": "
  ++ strftime day (lit "%B %d, %Y") ++ newline.

(** One of the three loops: [for i in range(7)], with
    [day = week_start + timedelta(days=i)]. *)
Fixpoint add_week_lines (week_start : datetime) (offsets : list Z)
    (calendar_text : str) : result str :=
  match offsets with
  | [] => Returns calendar_text
  | i :: rest =>
    match add_days week_start i with
    | Raises e => Raises e
    | Returns day => add_week_lines week_start rest (calendar_text ++ day_line day)
    end
  end.

(** The body of [get_calendar_context] once [today] is read. *)
Definition calendar_text_of (today : datetime) : result str :=
  match sub_days today (weekday today) with
  | Raises e => Raises e
  | Returns current_week_start =>
  match sub_days current_week_start 7 with
  | Raises e => Raises e
  | Returns prev_week_start =>
  match add_days current_week_start 7 with
  | Raises e => Raises e
  | Returns next_week_start =>
    let calendar_text :=
      lit "Current date: " ++ strftime today (lit "%A, %B %d, %Y")
      ++ newline ++ newline in
    let calendar_text := calendar_text ++ lit "Previous week:" ++ newline in
    match add_week_lines prev_week_start range7 calendar_text with
    | Raises e => Raises e
    | Returns calendar_text =>
    let calendar_text :=
      calendar_text ++ newline ++ lit "Current week:" ++ newline in
    match add_week_lines current_week_start range7 calendar_text with
    | Raises e => Raises e
    | Returns calendar_text =>
    let calendar_text :=
      calendar_text ++ newline ++ lit "Next week:" ++ newline in
    add_week_lines next_week_start range7 calendar_text
    end end
  end end end.

Definition get_calendar_context : M str :=
  today <- datetime_now ;;
  lift (calendar_text_of today).

(** ** [parse_and_polish_message] *)

(** A literal of the source that contains double quotes: each backquote
    of the argument stands for one double quote (the source has no
    backquote). *)
Definition quoted (s : string) : str :=
  map (fun a => if Ascii.eqb a "`"%char then 34%N else N_of_ascii a)
      (list_ascii_of_string s).

(** The text of the [system_prompt] f-string before and after
    [{calendar_context}]. *)
Definition prompt_head : str :=
  lit "You are a helpful assistant that parses and polishes reminder messages."
  ++ newline ++ newline.

Definition prompt_tail : str :=
  join newline (map quoted [
    "";
    "";
    "Your task:";
    "1. Parse the user's vague reminder message";
    "2. Split it into separate tasks if there are multiple tasks mentioned";
    "3. Polish each task to be clear and concise";
    "4. If a date or time is mentioned (like `tomorrow`, `next Tuesday`, `by April 15`), convert it to the actual date using the calendar above";
    "5. If the message mentions a deadline or says `by [date]`, include `do by` before the date";
    "6. Format each reminder as:";
    "   - If date is mentioned: `Task description\n\nDate` (task, blank line, date)";
    "   - If no date: just `Task description`";
    "";
    "Return ONLY the polished reminders separated by `---`. Do not add any explanations or extra text.";
    "";
    "Examples:";
    "Input: `STUDY FOR EXAM TOMORROW`";
    "Output: Study for exam";
    "";
    "January 9, 2026";
    "";
    "Input: `Order the meds, make tax report by April 15`";
    "Output: Order the meds";
    "---";
    "Make tax report";
    "";
    "do by April 15, 2026";
    "";
    "Input: `Call mom on Tuesday next week and buy groceries`";
    "Output: Call mom";
    "";
    "January 14, 2026";
    "---";
    "Buy groceries"
  ]%string).

Definition system_prompt (calendar_context : str) : str :=
  prompt_head ++ calendar_context ++ prompt_tail.

(** The request [openai_client.chat.completions.create] is called with. *)
Definition completion_request (calendar_context user_message : str)
    : CompletionRequest :=
  {| model := lit "gpt-4o-mini";
     messages :=
       [ {| role := lit "system"; content := system_prompt calendar_context |};
         {| role := lit "user"; content := user_message |} ];
     temperature := QArith_base.Qmake 7 10;
     max_tokens := 500 |}.

(** [response.choices[0].message.content]: an [IndexError] when the
    response has no choice, and the content may be [None]. *)
Definition first_choice_content (response : ChatCompletion) : M (option str) :=
  match choices response with
  | [] => raise (PyException (lit "IndexError") (lit "list index out of range"))
  | c :: _ => ret (choice_content c)
  end.

(** [[reminder.strip() for reminder in polished_text.split('---')
      if reminder.strip()]]. *)
Definition split_reminders (polished_text : str) : list str :=
  map strip
      (filter (fun reminder => truthy (strip reminder))
              (split (lit "---") polished_text)).

Definition parse_and_polish_message (user_message : str) : M (list str) :=
  calendar_context <- get_calendar_context ;;
  try_except
    (response <- create_completion
                   (completion_request calendar_context user_message) ;;
     content <- first_choice_content response ;;
     text <- attribute content "strip" ;;
     let polished_text := strip text in
     let reminders := split_reminders polished_text in
     ret reminders)
    (fun e =>
       logger_error (lit "Error parsing message with OpenAI: " ++ exc_str e) ;;;
       ret [user_message]).

(** ** The Telegram handlers *)

Definition welcome_text : str :=
  lit "Welcome to Reminder Bot!" ++ newline ++ newline
  ++ lit "Send me your reminders and I'll organize them for you." ++ newline
  ++ lit "Example: 'STUDY FOR EXAM TOMORROW' or 'Order meds, pay bills by Friday'"
  ++ newline ++ newline
  ++ lit "I'll clean up your message and send back organized reminders with Done/Cancel buttons.".

(** [update.message.reply_text(...)] sends to the chat of the message. *)
Definition start_command (update : Update) : M unit :=
  message <- attribute (update_message update) "reply_text" ;;
  send_message (chat_id message) welcome_text None.

(** The keyboard built for every reminder: one row with two buttons,
    a check mark (U+2705) before [Done] and a cross mark (U+274C) before
    [Cancel]. *)
Definition keyboard : InlineKeyboardMarkup :=
  [ [ {| button_text := 9989%N :: lit " Done"; callback_data := lit "done" |};
      {| button_text := 10060%N :: lit " Cancel"; callback_data := lit "cancel" |}
    ] ].

(** The loop of [handle_message]: one [send_message] per reminder. *)
Definition send_reminders (chat : Z) (reminders : list str) : M unit :=
  for_each reminders (fun reminder =>
    let reply_markup := keyboard in
    send_message chat reminder (Some reply_markup)).

Definition handle_message (update : Update) : M unit :=
  message <- attribute (update_message update) "text" ;;
  let user_message := message_text message in
  let chat := chat_id message in
  let message_id := message_id message in
  try_except
    (delete_message chat message_id)
    (fun e => logger_error (lit "Error deleting message: " ++ exc_str e)) ;;;
  reminders <- parse_and_polish_message user_message ;;
  send_reminders chat reminders.

(** [query.message.delete()] deletes that message in its chat. *)
Definition message_delete (message : option Message) : M unit :=
  m <- attribute message "delete" ;;
  delete_message (chat_id m) (message_id m).

Definition button_callback (update : Update) : M unit :=
  query <- attribute (update_callback_query update) "answer" ;;
  answer (query_id query) ;;;
  try_except
    (message_delete (query_message query))
    (fun e =>
       logger_error
         (lit "Error deleting message after button press: " ++ exc_str e)).

(** ** [health_check] and [start_health_server] *)

Definition health_check (_request : Request) : Response :=
  {| status := 200; body := lit "OK" |}.

Record Route := {
  route_method : str; route_path : str; route_handler : Request -> Response }.

(** [router.add_get(path, handler)]: a route for GET and, since
    [allow_head] is left to its default, one for HEAD. *)
Definition add_get (path : str) (handler : Request -> Response)
    (router : list Route) : list Route :=
  router
  ++ [ {| route_method := lit "GET"; route_path := path;
          route_handler := handler |};
       {| route_method := lit "HEAD"; route_path := path;
          route_handler := handler |} ].

Record TCPSite := {
  site_host : str; site_port : Z; site_router : list Route }.

Definition start_health_server : TCPSite :=
  {| site_host := lit "0.0.0.0";
     site_port := 8080;
     site_router := add_get (lit "/health") health_check [] |}.

Definition route_matches (request : Request) (r : Route) : bool :=
  str_eqb (route_path r) (http_path request)
  && str_eqb (route_method r) (http_method request).

(** What the server answers: the response of the handler of the first
    route with this path and method (without its body for HEAD), 405 when
    the path is known under other methods only, 404 otherwise. *)
Definition handle_request (site : TCPSite) (request : Request) : Response :=
  match find (route_matches request) (site_router site) with
  | Some r =>
    let response := route_handler r request in
    if str_eqb (http_method request) (lit "HEAD")
    then {| status := status response; body := [] |}
    else response
  | None =>
    if existsb (fun r => str_eqb (route_path r) (http_path request))
               (site_router site)
    then {| status := 405; body := lit "405: Method Not Allowed" |}
    else {| status := 404; body := lit "404: Not Found" |}
  end.

(** ** [start_bot]: the handlers and how an update reaches them *)

(** [filters.TEXT]: the message has a non-empty text. *)
Definition filters_TEXT (m : Message) : bool := truthy (message_text m).

(** [filters.COMMAND]: the first entity of the message is a bot command
    at offset 0. *)
Definition filters_COMMAND (m : Message) : bool :=
  match message_entities m with
  | e :: _ =>
    str_eqb (entity_type e) (lit "bot_command") && (entity_offset e =? 0)%Z
  | [] => false
  end.

(** [s.lower()] on the ASCII letters, the only ones a command or a bot
    user name may contain. *)
Definition lower (s : str) : str :=
  map (fun c => if ((65 <=? c) && (c <=? 90))%N then (c + 32)%N else c) s.

(** The test of [CommandHandler] on a message that starts with a command:
    the command is [text[1:length]], optionally followed by [@] and the
    user name of the bot it addresses. *)
Definition command_matches (bot_username command : str) (m : Message) : bool :=
  match message_entities m with
  | e :: _ =>
    let name :=
      firstn (Z.to_nat (entity_length e) - 1) (skipn 1 (message_text m)) in
    match split (lit "@") name ++ [bot_username] with
    | part0 :: part1 :: _ =>
      str_eqb (lower part0) command && str_eqb (lower part1) (lower bot_username)
    | _ => false
    end
  | [] => false
  end.

Inductive Handler :=
| CommandHandler (command : str) (callback : Update -> M unit)
| MessageHandler (filters : Message -> bool) (callback : Update -> M unit)
| CallbackQueryHandler (pattern : option (str -> bool))
                       (callback : Update -> M unit).

Definition callback_of (h : Handler) : Update -> M unit :=
  match h with
  | CommandHandler _ callback => callback
  | MessageHandler _ callback => callback
  | CallbackQueryHandler _ callback => callback
  end.

(** [handler.check_update(update)].  Command and message handlers look
    at message updates only; a callback-query handler with no pattern
    takes every callback query, and one with a pattern takes those whose
    data the pattern accepts. *)
Definition check_update (bot_username : str) (h : Handler) (update : Update)
    : bool :=
  match h with
  | CommandHandler command _ =>
    match update_message update with
    | Some m =>
      filters_COMMAND m && truthy (message_text m)
      && command_matches bot_username command m
    | None => false
    end
  | MessageHandler filters _ =>
    match update_message update with
    | Some m => filters m
    | None => false
    end
  | CallbackQueryHandler pattern _ =>
    match update_callback_query update with
    | Some q =>
      match pattern with
      | None => true
      | Some accepts =>
        match query_data q with
        | Some data => accepts data
        | None => false
        end
      end
    | None => false
    end
  end.

(** The three [application.add_handler] calls of [start_bot], in order. *)
Definition start_bot : list Handler :=
  [ CommandHandler (lit "start") start_command;
    MessageHandler (fun m => filters_TEXT m && negb (filters_COMMAND m))
                   handle_message;
    CallbackQueryHandler None button_callback ].

(** The handler the application picks for an update: the first one whose
    check accepts it. *)
Definition select_handler (bot_username : str) (handlers : list Handler)
    (update : Update) : option Handler :=
  find (fun h => check_update bot_username h update) handlers.

(** [Application.process_update]: the selected callback runs; an
    exception that escapes it is logged by the application, which goes on
    with the next update. *)
Definition process_update (bot_username : str) (handlers : list Handler)
    (update : Update) : M unit :=
  match select_handler bot_username handlers update with
  | Some h =>
    try_except (callback_of h update)
      (fun _ =>
         logger_error
           (lit "No error handlers are registered, logging exception."))
  | None => ret tt
  end.

(** ** [main]: the listener and the health server side by side

    The process takes Telegram updates and HTTP requests one at a time.
    The listener's state is everything its handlers have done so far; the
    health server has no state of its own. *)
Inductive Input :=
| TelegramUpdate (bot_username : str) (update : Update) (w : world)
| HttpRequest (port : Z) (request : Request).

Definition main_step (listener : list event) (i : Input)
    : list event * option Response :=
  match i with
  | TelegramUpdate bot_username update w =>
    (listener ++ trace (exec (process_update bot_username start_bot update) w),
     None)
  | HttpRequest port request =>
    (listener,
     if (port =? site_port start_health_server)%Z
     then Some (handle_request start_health_server request)
     else None)
  end.

(** The state of the listener after a sequence of inputs. *)
Definition main (inputs : list Input) : list event :=
  fold_left (fun listener i => fst (main_step listener i)) inputs [].

(** ** Vocabulary of the statements *)

(** Day [i] of the week that starts at ordinal [week_start]: a date of
    the calendar, [i] days after the start, on weekday [i], labelled with
    the name of that weekday. *)
Definition entry_correct (week_start i : Z) (d : datetime) : Prop :=
  valid_date d = true
  /\ toordinal d = (week_start + i)%Z
  /\ weekday d = i
  /\ strftime d (lit "%A") = lit (nth (Z.to_nat i) day_name ""%string).

(** Seven entries, Monday to Sunday, for the week starting at
    [week_start]. *)
Definition week_entries (week_start : Z) (days : list datetime) : Prop :=
  Forall2 (entry_correct week_start) range7 days.

Definition week_lines (days : list datetime) : str :=
  List.concat (map day_line days).

(** The text of the calendar context, given the days of its three
    blocks. *)
Definition calendar_layout (today : datetime)
    (prev current next : list datetime) : str :=
  lit "Current date: " ++ strftime today (lit "%A, %B %d, %Y")
  ++ newline ++ newline
  ++ lit "Previous week:" ++ newline ++ week_lines prev
  ++ newline ++ lit "Current week:" ++ newline ++ week_lines current
  ++ newline ++ lit "Next week:" ++ newline ++ week_lines next.

Definition is_send (e : event) : bool :=
  match e with SendMessage _ _ _ _ => true | _ => false end.

Definition is_delete (e : event) : bool :=
  match e with DeleteMessage _ _ _ => true | _ => false end.

Definition is_log (e : event) : bool :=
  match e with LogError _ => true | _ => false end.

(** The platform accepts every message the bot sends. *)
Definition sends_accepted (w : world) : Prop :=
  forall n chat text reply_markup,
    bot_send_message w n chat text reply_markup = Returns tt.

(** The same world with another fate for the deletions. *)
Definition with_delete (w : world)
    (delete : nat -> Z -> Z -> result unit) : world :=
  {| clock := clock w;
     bot_delete_message := delete;
     chat_completions_create := chat_completions_create w;
     bot_send_message := bot_send_message w;
     bot_answer_callback_query := bot_answer_callback_query w |}.

(** The update Telegram delivers for a text message. *)
Definition message_update (m : Message) : Update :=
  {| update_message := Some m; update_callback_query := None |}.

(** The update Telegram delivers when a button of [message] is pressed:
    a callback query with the [callback_data] of the button. *)
Definition callback_update (query : str) (data : option str)
    (message : option Message) : Update :=
  {| update_message := None;
     update_callback_query :=
       Some {| query_id := query; query_data := data;
               query_message := message |} |}.

(** What the [except] branch of [parse_and_polish_message] logs. *)
Definition parse_error_line (e : py_exception) : event :=
  LogError (lit "Error parsing message with OpenAI: " ++ exc_str e).

Definition index_error : py_exception :=
  PyException (lit "IndexError") (lit "list index out of range").

Definition no_strip_error : py_exception :=
  PyException (lit "AttributeError")
    (lit "'NoneType' object has no attribute '" ++ lit "strip" ++ lit "'").

Definition delete_error_line : str := lit "Error deleting message: ".

Definition button_error_line : str :=
  lit "Error deleting message after button press: ".

(** The events of a guarded deletion: one attempt, and a log line when
    it failed. *)
Definition deletion_events (line : str) (chat message : Z) (r : result unit)
    : list event :=
  match r with
  | Returns _ => [DeleteMessage chat message r]
  | Raises e => [DeleteMessage chat message r; LogError (line ++ exc_str e)]
  end.

(** ** Sample inputs *)

(** Wednesday 2026-01-14, half past nine. *)
Definition sample_now : datetime := mk_datetime 2026 1 14 9 30 0 0.

Definition sample_message : Message :=
  {| message_id := 42; chat_id := 7;
     message_text := lit "Order the meds, make tax report by April 15";
     message_entities := [] |}.

(** A world where Telegram accepts everything and the completion
    service gives [answer]. *)
Definition sample_world (answer : result ChatCompletion) : world :=
  {| clock := sample_now;
     bot_delete_message := fun _ _ _ => Returns tt;
     chat_completions_create := fun _ _ => answer;
     bot_send_message := fun _ _ _ _ => Returns tt;
     bot_answer_callback_query := fun _ _ => Returns tt |}.

(** A completion whose only choice has the given content. *)
Definition completion_of (blob : str) : ChatCompletion :=
  {| choices := [ {| choice_content := Some blob |} ] |}.

Definition connection_error : py_exception :=
  PyException (lit "APIConnectionError") (lit "Connection error.").

Definition bad_request : py_exception :=
  PyException (lit "BadRequest") (lit "Message to delete not found").

(** The answer of the second example of the prompt. *)
Definition sample_blob : str :=
  join newline
    (map lit ["Order the meds"; "---"; "Make tax report"; "";
              "do by April 15, 2026"]%string).

(** The calendar context on [sample_now]. *)
Definition sample_context : str :=
  match calendar_text_of sample_now with
  | Returns calendar_text => calendar_text
  | Raises _ => []
  end.

(** ** Vocabulary of the further properties *)

(** The delimiter the prompt asks for between reminders. *)
Definition delimiter : str := lit "---".

(** The delimiter on a line of its own, as in the examples of the
    prompt. *)
Definition separator_line : str := newline ++ delimiter ++ newline.

(** A reminder as the splitter returns them: not empty, trimmed, and
    without the delimiter in it. *)
Definition reminder_item (r : str) : Prop :=
  r <> [] /\ strip r = r /\ contains delimiter r = false.

(** The day with the given ordinal, at the time of day of [today]. *)
Definition day_at (today : datetime) (ordinal : Z) : datetime :=
  let '(y, m, d) := _ord2ymd ordinal in
  mk_datetime y m d (hour today) (minute today) (second today)
              (microsecond today).

(** The seven days from [week_start] on. *)
Definition week_of (today : datetime) (week_start : Z) : list datetime :=
  map (fun i => day_at today (week_start + i)%Z) range7.

Definition overflow_error : py_exception :=
  PyException (lit "OverflowError") (lit "date value out of range").

Definition no_delete_error : py_exception :=
  PyException (lit "AttributeError")
    (lit "'NoneType' object has no attribute '" ++ lit "delete" ++ lit "'").

(** Where a handler may send and what it may delete: messages go to
    [chat] with the keyboard, deletions are of [message] in [chat]. *)
Definition stays_in_chat (chat message : Z) (ev : event) : Prop :=
  match ev with
  | SendMessage c _ reply_markup _ => c = chat /\ reply_markup = Some keyboard
  | DeleteMessage c i _ => c = chat /\ i = message
  | _ => True
  end.

Definition start_message : Message :=
  {| message_id := 43; chat_id := 7; message_text := lit "/start";
     message_entities :=
       [ {| entity_type := lit "bot_command"; entity_offset := 0;
            entity_length := 6 |} ] |}.

Definition help_message : Message :=
  {| message_id := 44; chat_id := 7; message_text := lit "/help";
     message_entities :=
       [ {| entity_type := lit "bot_command"; entity_offset := 0;
            entity_length := 5 |} ] |}.

Definition retry_after : py_exception :=
  PyException (lit "RetryAfter")
    (lit "Flood control exceeded. Retry in 30 seconds").

(** A world where Telegram refuses the message with text [refused] and
    accepts the others. *)
Definition refusing_world (answer : result ChatCompletion) (refused : str)
    : world :=
  {| clock := sample_now;
     bot_delete_message := fun _ _ _ => Returns tt;
     chat_completions_create := fun _ _ => answer;
     bot_send_message := fun _ _ text _ =>
       if str_eqb text refused then Raises retry_after else Returns tt;
     bot_answer_callback_query := fun _ _ => Returns tt |}.

(** A world where the acknowledgement of a callback query fails. *)
Definition unanswering_world : world :=
  {| clock := sample_now;
     bot_delete_message := fun _ _ _ => Returns tt;
     chat_completions_create := fun _ _ => Raises connection_error;
     bot_send_message := fun _ _ _ _ => Returns tt;
     bot_answer_callback_query := fun _ _ => Raises bad_request |}.

(** A world with the given clock where every outside call succeeds. *)
Definition world_at (now : datetime) (answer : result ChatCompletion) : world :=
  {| clock := now;
     bot_delete_message := fun _ _ _ => Returns tt;
     chat_completions_create := fun _ _ => answer;
     bot_send_message := fun _ _ _ _ => Returns tt;
     bot_answer_callback_query := fun _ _ => Returns tt |}.

End Bot.

(* ------------------------------------------------------------------ *)
(** * Lemmas *)

Unset Implicit Arguments.

(* ------------------------------------------------------------------ *)
(** * Facts about [strip], [split] and [join] *)

Section StrFacts.
Import PyStr.

Lemma lstrip_decomp (s : str) :
  exists l, s = l ++ lstrip s /\ whitespace_only l = true.
Proof.
  induction s as [|c s [l [Hs Hl]]]; simpl.
  - exists []. auto.
  - destruct (Py_UNICODE_ISSPACE c) eqn:Hc.
    + exists (c :: l). simpl. rewrite Hc, Hl. split; [congruence | reflexivity].
    + exists []. auto.
Qed.

Lemma lstrip_head (s : str) c t :
  lstrip s = c :: t -> Py_UNICODE_ISSPACE c = false.
Proof.
  induction s as [|a s IH]; simpl; [discriminate|].
  destruct (Py_UNICODE_ISSPACE a) eqn:Ha; auto.
  intros H. injection H as -> _. exact Ha.
Qed.

Lemma lstrip_fixed (s : str) c t :
  s = c :: t -> Py_UNICODE_ISSPACE c = false -> lstrip s = s.
Proof. intros -> H. simpl. now rewrite H. Qed.

Lemma lstrip_idem (s : str) : lstrip (lstrip s) = lstrip s.
Proof.
  destruct (lstrip s) as [|c t] eqn:E; [reflexivity|].
  eapply lstrip_fixed; eauto using lstrip_head.
Qed.

Lemma lstrip_whitespace (s : str) :
  whitespace_only s = true -> lstrip s = [].
Proof.
  induction s as [|c s IH]; simpl; auto.
  destruct (Py_UNICODE_ISSPACE c); simpl; auto. discriminate.
Qed.

Lemma whitespace_only_app (a b : str) :
  whitespace_only (a ++ b) = whitespace_only a && whitespace_only b.
Proof. apply forallb_app. Qed.

Lemma whitespace_only_rev (a : str) :
  whitespace_only (rev a) = whitespace_only a.
Proof.
  induction a as [|c a IH]; simpl; auto.
  rewrite whitespace_only_app, IH. simpl.
  now rewrite andb_true_r, andb_comm.
Qed.

Lemma rstrip_decomp (s : str) :
  exists r, s = rstrip s ++ r /\ whitespace_only r = true.
Proof.
  unfold rstrip.
  destruct (lstrip_decomp (rev s)) as [l [Hs Hl]].
  exists (rev l). split.
  - rewrite <- rev_app_distr, <- Hs. now rewrite rev_involutive.
  - now rewrite whitespace_only_rev.
Qed.

Lemma rstrip_idem (s : str) : rstrip (rstrip s) = rstrip s.
Proof. unfold rstrip. now rewrite rev_involutive, lstrip_idem. Qed.

(** The text is its [strip] between two runs of whitespace. *)
Lemma strip_decomp (s : str) :
  exists l r, s = l ++ strip s ++ r
              /\ whitespace_only l = true /\ whitespace_only r = true.
Proof.
  destruct (lstrip_decomp s) as [l [Hs Hl]].
  destruct (rstrip_decomp (lstrip s)) as [r [Hr Hw]].
  exists l, r. unfold strip. rewrite <- Hr. auto.
Qed.

Lemma strip_head (s : str) c t :
  strip s = c :: t -> Py_UNICODE_ISSPACE c = false.
Proof.
  unfold strip. intros H.
  destruct (rstrip_decomp (lstrip s)) as [r [Hr _]].
  rewrite H in Hr. simpl in Hr. eauto using lstrip_head.
Qed.

Lemma strip_idem (s : str) : strip (strip s) = strip s.
Proof.
  destruct (strip s) as [|c t] eqn:E; [reflexivity|].
  unfold strip at 1.
  rewrite (lstrip_fixed _ _ _ eq_refl (strip_head _ _ _ E)).
  rewrite <- E. unfold strip. apply rstrip_idem.
Qed.

Lemma strip_whitespace (s : str) :
  whitespace_only s = true -> strip s = [].
Proof. intros H. unfold strip. now rewrite (lstrip_whitespace _ H). Qed.


Lemma match_prefix_app (p s rest : str) :
  match_prefix p s = Some rest -> s = p ++ rest.
Proof.
  revert s. induction p as [|a p IH]; intros [|b s]; simpl; try congruence.
  destruct (N.eqb_spec a b); [|discriminate].
  intros H. subst. f_equal. auto.
Qed.

Lemma join_cons_head (sep : str) c p ps :
  join sep ((c :: p) :: ps) = c :: join sep (p :: ps).
Proof. destruct ps; reflexivity. Qed.

Lemma split_scan_nonempty fuel (sep s : str) : split_scan fuel sep s <> [].
Proof.
  destruct fuel; simpl; [discriminate|].
  destruct s; [discriminate|].
  destruct (match_prefix sep _); [discriminate|].
  destruct (split_scan fuel sep s); discriminate.
Qed.

(** Gluing the pieces back with the separator gives the text. *)
Lemma join_split_scan fuel (sep s : str) :
  List.length s <= fuel -> sep <> [] -> join sep (split_scan fuel sep s) = s.
Proof.
  revert s. induction fuel as [|fuel IH]; intros s Hlen Hsep; [reflexivity|].
  simpl. destruct s as [|c s]; [reflexivity|].
  destruct (match_prefix sep (c :: s)) as [rest|] eqn:E.
  - apply match_prefix_app in E.
    assert (Hr : List.length rest <= fuel).
    { apply (f_equal (@List.length _)) in E. rewrite length_app in E. simpl in *.
      destruct sep; [congruence|simpl in E; lia]. }
    specialize (IH rest Hr Hsep).
    destruct (split_scan fuel sep rest) as [|q qs] eqn:Eq.
    + now apply split_scan_nonempty in Eq.
    + change (join sep ([] :: q :: qs)) with ([] ++ sep ++ join sep (q :: qs)).
      rewrite IH. simpl. now rewrite E.
  - simpl in Hlen. specialize (IH s ltac:(lia) Hsep).
    destruct (split_scan fuel sep s) as [|q qs] eqn:Eq.
    + now apply split_scan_nonempty in Eq.
    + change (join sep ((c :: q) :: qs) = c :: s).
      rewrite join_cons_head. f_equal. exact IH.
Qed.

Lemma match_prefix_shorter (p s rest : str) :
  p <> [] -> match_prefix p s = Some rest -> List.length rest < List.length s.
Proof.
  intros Hp H. apply match_prefix_app in H. subst s.
  rewrite length_app. destruct p; [congruence | simpl; lia].
Qed.

(** The fuel given by [split] never runs out: any larger amount gives
    the same pieces. *)
Lemma split_scan_enough_fuel (sep : str) :
  sep <> [] ->
  forall fuel s, List.length s <= fuel ->
    split_scan fuel sep s = split sep s.
Proof.
  intros Hsep. unfold split.
  assert (H : forall fuel fuel' s,
             List.length s <= fuel -> List.length s <= fuel' ->
             split_scan fuel sep s = split_scan fuel' sep s).
  { induction fuel as [|fuel IH]; intros fuel' s H1 H2.
    - destruct s; [|simpl in H1; lia]. destruct fuel'; reflexivity.
    - destruct s as [|c s]; [destruct fuel'; reflexivity|].
      destruct fuel' as [|fuel']; [simpl in H2; lia|].
      simpl in H1, H2. cbn [split_scan].
      destruct (match_prefix sep (c :: s)) as [rest|] eqn:E.
      + pose proof (match_prefix_shorter _ _ _ Hsep E) as Hr. simpl in Hr.
        f_equal. apply IH; lia.
      + rewrite (IH fuel' s); [reflexivity | lia | lia]. }
  intros fuel s Hlen. apply H; [exact Hlen | lia].
Qed.

Lemma join_split (sep s : str) : sep <> [] -> join sep (split sep s) = s.
Proof. intros H. apply join_split_scan; auto. Qed.






(** The model on a few texts, with the values Python gives. *)
Example split_examples :
  split (lit "---") (lit "a---b----c------")
  = [lit "a"; lit "b"; lit "-c"; []; []]
  /\ split (lit "---") [] = [[]]
  /\ split (lit "---") (lit "--") = [lit "--"].
Proof. repeat split; reflexivity. Qed.

(** A no-break space (U+00A0) and an ideographic space (U+3000) are
    stripped, a zero-width space (U+200B) is not. *)
Example strip_examples :
  strip (160%N :: lit " a b" ++ [12288%N; 10%N]) = lit "a b"
  /\ strip [8203%N; 32%N] = [8203%N].
Proof. split; reflexivity. Qed.

End StrFacts.

(* ------------------------------------------------------------------ *)
(** * Texts made of delimiters and whitespace *)

Section DelimiterFacts.
Import PyStr.

Lemma dw_app (a b : str) :
  delimiters_and_whitespace a -> delimiters_and_whitespace b ->
  delimiters_and_whitespace (a ++ b).
Proof.
  induction 1 as [|c s Hc _ IH|s _ IH]; intros Hb; [exact Hb| |].
  - simpl. apply dw_space; auto.
  - rewrite <- app_assoc. apply dw_delimiter. auto.
Qed.

Lemma dw_rev (s : str) :
  delimiters_and_whitespace s -> delimiters_and_whitespace (rev s).
Proof.
  induction 1 as [|c s Hc _ IH|s _ IH]; [constructor| |].
  - simpl. apply dw_app; [exact IH|]. apply dw_space; [exact Hc | constructor].
  - rewrite rev_app_distr. apply dw_app; [exact IH|].
    change (rev (lit "---")) with (lit "---" ++ []).
    apply dw_delimiter. constructor.
Qed.

Lemma dw_lstrip (s : str) :
  delimiters_and_whitespace s -> delimiters_and_whitespace (lstrip s).
Proof.
  induction 1 as [|c s Hc _ IH|s H _]; [constructor| |].
  - simpl. now rewrite Hc.
  - change (lstrip (lit "---" ++ s)) with (lit "---" ++ s).
    now apply dw_delimiter.
Qed.

Lemma dw_strip (s : str) :
  delimiters_and_whitespace s -> delimiters_and_whitespace (strip s).
Proof.
  intros H. unfold strip, rstrip.
  apply dw_rev, dw_lstrip, dw_rev, dw_lstrip, H.
Qed.

Lemma hyphen_not_space (c : codepoint) :
  Py_UNICODE_ISSPACE c = true -> (45 =? c)%N = false.
Proof.
  intros H. destruct (N.eqb_spec 45 c) as [<-|]; [discriminate H | reflexivity].
Qed.

(** Split on [---], such a text leaves whitespace-only pieces. *)
Lemma dw_split_scan (s : str) :
  delimiters_and_whitespace s ->
  forall fuel, List.length s <= fuel ->
    Forall (fun p => whitespace_only p = true) (split_scan fuel (lit "---") s).
Proof.
  induction 1 as [|c s Hc _ IH|s _ IH]; intros fuel Hlen.
  - destruct fuel; repeat constructor.
  - destruct fuel as [|fuel]; [simpl in Hlen; lia|].
    simpl in Hlen. specialize (IH fuel ltac:(lia)).
    assert (Hp : match_prefix (lit "---") (c :: s) = None).
    { change (match_prefix (lit "---") (c :: s))
        with (if (45 =? c)%N then match_prefix (lit "--") s else None).
      now rewrite (hyphen_not_space c Hc). }
    cbn [split_scan]. rewrite Hp.
    destruct (split_scan fuel (lit "---") s) as [|p ps].
    + repeat constructor. simpl. now rewrite Hc.
    + inversion IH; subst. constructor; [|assumption].
      simpl. rewrite Hc. assumption.
  - destruct fuel as [|fuel]; [simpl in Hlen; lia|].
    change (split_scan (S fuel) (lit "---") (lit "---" ++ s))
      with ([] :: split_scan fuel (lit "---") s).
    constructor; [reflexivity|]. apply IH.
    rewrite length_app in Hlen. simpl in Hlen. lia.
Qed.

Lemma filter_stripped_whitespace (pieces : list str) :
  Forall (fun p => whitespace_only p = true) pieces ->
  filter (fun p => truthy (strip p)) pieces = [].
Proof.
  induction 1 as [|p ps Hp _ IH]; [reflexivity|].
  simpl. now rewrite (strip_whitespace p Hp), IH.
Qed.

End DelimiterFacts.
(* ------------------------------------------------------------------ *)
(** * Facts about ordinals and dates *)

Section DateFacts.
Import PyStr PyExc PyDatetime.
Local Open Scope Z_scope.

Lemma forallb_below (f : Z -> bool) (k : nat) :
  forallb f (map Z.of_nat (seq 0 k)) = true ->
  forall n, 0 <= n < Z.of_nat k -> f n = true.
Proof.
  intros H n Hn. rewrite forallb_forall in H. apply H.
  rewrite in_map_iff. exists (Z.to_nat n). split; [lia|].
  apply in_seq. lia.
Qed.

Lemma month_and_day_correct (leapyear : bool) (n : Z) :
  0 <= n < (if leapyear then 366 else 365) ->
  month_and_day_ok leapyear n = true.
Proof.
  intros Hn. destruct leapyear.
  - apply (forallb_below (month_and_day_ok true) 366); [vm_compute; reflexivity | lia].
  - apply (forallb_below (month_and_day_ok false) 365); [vm_compute; reflexivity | lia].
Qed.

Lemma ord2ymd_correct (n : Z) :
  1 <= n <= _MAXORDINAL ->
  let '(y, m, d) := _ord2ymd n in
  MINYEAR <= y <= MAXYEAR /\ 1 <= m <= 12
  /\ 1 <= d <= _days_in_month y m /\ _ymd2ord y m d = n.
Proof.
  unfold _MAXORDINAL, MINYEAR, MAXYEAR. intros Hn.
  unfold _ord2ymd, _DI400Y, _DI100Y, _DI4Y. cbv zeta.
  pose proof (Z.div_mod (n - 1) 146097 ltac:(lia)) as E1.
  pose proof (Z.mod_pos_bound (n - 1) 146097 ltac:(lia)) as B1.
  set (n400 := (n - 1) / 146097) in *. set (r1 := (n - 1) mod 146097) in *.
  pose proof (Z.div_mod r1 36524 ltac:(lia)) as E2.
  pose proof (Z.mod_pos_bound r1 36524 ltac:(lia)) as B2.
  set (n100 := r1 / 36524) in *. set (r2 := r1 mod 36524) in *.
  pose proof (Z.div_mod r2 1461 ltac:(lia)) as E3.
  pose proof (Z.mod_pos_bound r2 1461 ltac:(lia)) as B3.
  set (n4 := r2 / 1461) in *. set (r3 := r2 mod 1461) in *.
  pose proof (Z.div_mod r3 365 ltac:(lia)) as E4.
  pose proof (Z.mod_pos_bound r3 365 ltac:(lia)) as B4.
  set (n1 := r3 / 365) in *. set (r4 := r3 mod 365) in *.
  clearbody n400 r1 n100 r2 n4 r3 n1 r4.
  assert (H400 : 0 <= n400 <= 24) by lia.
  assert (H100 : 0 <= n100 <= 4) by lia.
  assert (H4 : 0 <= n4 <= 24) by lia.
  assert (H1 : 0 <= n1 <= 4) by lia.
  destruct ((n1 =? 4) || (n100 =? 4)) eqn:Hend.
  - (* the last day of a leap year *)
    assert (Hy : (n1 = 4 /\ r4 = 0 /\ n100 <= 3) \/ (n100 = 4 /\ r2 = 0)) by lia.
    unfold _days_in_month, _ymd2ord, _days_before_month, _days_before_year, _is_leap.
    change (12 =? 2) with false. change (12 >? 2) with true. cbn [andb item nth].
    change (item _DAYS_IN_MONTH 12) with 31.
    change (item _DAYS_BEFORE_MONTH 12) with 334.
    set (y := n400 * 400 + 1 + n100 * 100 + n4 * 4 + n1 - 1).
    assert (Hy4 : y mod 4 = 0) by (subst y; Z.to_euclidean_division_equations; lia).
    assert (Hleap : (negb (y mod 100 =? 0) || (y mod 400 =? 0)) = true).
    { destruct Hy as [[? [? ?]]|[? ?]].
      - destruct (Z.eqb_spec (y mod 100) 0) as [E|E]; simpl; auto.
        apply Z.eqb_eq. subst y. Z.to_euclidean_division_equations. lia.
      - replace (y mod 400 =? 0) with true; [apply orb_true_r|].
        symmetry. apply Z.eqb_eq. subst y. Z.to_euclidean_division_equations. lia. }
    rewrite Hy4, Hleap. cbn [Z.eqb andb].
    subst y. Z.to_euclidean_division_equations. lia.
  - apply orb_false_elim in Hend. destruct Hend as [Hn1 Hn100].
    apply Z.eqb_neq in Hn1, Hn100.
    set (leapyear := (n1 =? 3) && (negb (n4 =? 24) || (n100 =? 3))).
    set (y := n400 * 400 + 1 + n100 * 100 + n4 * 4 + n1).
    assert (Hleap : _is_leap y = leapyear).
    { unfold _is_leap, leapyear.
      destruct (Z.eqb_spec n1 3), (Z.eqb_spec n4 24), (Z.eqb_spec n100 3),
        (Z.eqb_spec (y mod 4) 0), (Z.eqb_spec (y mod 100) 0),
        (Z.eqb_spec (y mod 400) 0); simpl; try reflexivity; exfalso;
        subst y; Z.to_euclidean_division_equations; lia. }
    assert (Hdoy : 0 <= r4 < (if leapyear then 366 else 365)).
    { destruct leapyear; lia. }
    pose proof (month_and_day_correct leapyear r4 Hdoy) as Hmd.
    unfold month_and_day_ok, month_and_day in Hmd. cbv zeta in Hmd.
    assert (Hyear : _days_before_year y + r4 + 1 = n).
    { unfold _days_before_year. subst y. Z.to_euclidean_division_equations. lia. }
    unfold _days_in_month, _ymd2ord, _days_before_month.
    destruct (_ >? r4); rewrite Hleap;
      repeat (apply andb_prop in Hmd; destruct Hmd as [Hmd ?]); lia.
Qed.


(** Moving a date by whole days inside the supported range gives the
    date of the calendar with the shifted ordinal. *)
Lemma add_days_correct (d : datetime) (k : Z) :
  1 <= toordinal d + k <= _MAXORDINAL ->
  exists d', add_days d k = Returns d'
             /\ valid_date d' = true /\ toordinal d' = toordinal d + k.
Proof.
  intros H. unfold add_days.
  replace ((0 <? toordinal d + k) && (toordinal d + k <=? _MAXORDINAL))
    with true by (symmetry; apply andb_true_iff; split; [apply Z.ltb_lt | apply Z.leb_le]; lia).
  pose proof (ord2ymd_correct _ H) as Hc.
  destruct (_ord2ymd (toordinal d + k)) as [[y m] dd].
  destruct Hc as [Hy [Hm [Hd Ho]]].
  eexists. split; [reflexivity|]. split; [|exact Ho].
  unfold valid_date. cbn [year month day].
  repeat (apply andb_true_iff; split); apply Z.leb_le; lia.
Qed.

Lemma add_days_out_of_range (d : datetime) (k : Z) :
  toordinal d + k <= 0 \/ _MAXORDINAL < toordinal d + k ->
  add_days d k
  = Raises (PyException (lit "OverflowError") (lit "date value out of range")).
Proof.
  intros H. unfold add_days.
  replace ((0 <? toordinal d + k) && (toordinal d + k <=? _MAXORDINAL))
    with false; [reflexivity|].
  symmetry. apply andb_false_iff.
  destruct H; [left; apply Z.ltb_ge | right; apply Z.leb_gt]; lia.
Qed.

Lemma weekday_range (d : datetime) : 0 <= weekday d < 7.
Proof. unfold weekday. apply Z.mod_pos_bound. lia. Qed.

(** [%A] gives the name of the weekday. *)
Lemma strftime_weekday_name (d : datetime) :
  strftime d (lit "%A") = lit (nth (Z.to_nat (weekday d)) day_name ""%string).
Proof. cbn. apply app_nil_r. Qed.

(** The model on a few dates, with the values Python gives. *)
Example ordinal_examples :
  _ymd2ord 1 1 1 = 1
  /\ _ymd2ord 9999 12 31 = _MAXORDINAL
  /\ _ord2ymd 730179 = (2000, 2, 29)
  /\ _ord2ymd 693960 = (1900, 12, 31)
  /\ weekday (mk_datetime 1970 1 1 0 0 0 0) = 3.
Proof. repeat split; reflexivity. Qed.

End DateFacts.

(* ------------------------------------------------------------------ *)
(** * The calendar context *)

Section CalendarFacts.
Import PyStr PyExc PyDatetime Bot.
Local Open Scope Z_scope.

(** One loop of [get_calendar_context] appends the lines of the days at
    the given offsets from the start of the week. *)
Lemma add_week_lines_correct (week_start : datetime) (offsets : list Z) :
  Forall (fun i => 1 <= toordinal week_start + i <= _MAXORDINAL) offsets ->
  forall calendar_text, exists days,
    add_week_lines week_start offsets calendar_text
    = Returns (calendar_text ++ week_lines days)
    /\ Forall2 (fun i d => valid_date d = true
                           /\ toordinal d = toordinal week_start + i)
               offsets days.
Proof.
  induction 1 as [|i offsets Hi _ IH]; intros calendar_text.
  - exists []. unfold week_lines. simpl. rewrite app_nil_r. auto.
  - destruct (add_days_correct week_start i Hi) as [d [Hd [Hv Ho]]].
    destruct (IH (calendar_text ++ day_line d)) as [days [Hrun Hdays]].
    exists (d :: days). simpl. rewrite Hd, Hrun. split.
    + unfold week_lines. simpl. now rewrite <- app_assoc.
    + constructor; auto.
Qed.

(** When the week starts on a Monday, the seven days carry the weekdays
    0 to 6 and their names. *)
Lemma week_entries_of_monday (monday : Z) (days : list datetime) :
  (monday + 6) mod 7 = 0 ->
  Forall2 (fun i d => valid_date d = true /\ toordinal d = monday + i)
          range7 days ->
  week_entries monday days.
Proof.
  intros Hmon H. unfold week_entries.
  assert (Hr : Forall (fun i => 0 <= i < 7) range7).
  { unfold range7. repeat constructor; lia. }
  revert Hr. induction H as [|i d offs ds [Hv Ho] _ IH]; intros Hr.
  - constructor.
  - inversion Hr as [|? ? Hi Hr']; subst.
    constructor; [|now apply IH].
    assert (Hw : weekday d = i).
    { unfold weekday. rewrite Ho.
      Z.to_euclidean_division_equations. lia. }
    unfold entry_correct. rewrite strftime_weekday_name, Hw. auto.
Qed.

Lemma range7_in_week (start : Z) :
  1 <= start -> start + 6 <= _MAXORDINAL ->
  Forall (fun i => 1 <= start + i <= _MAXORDINAL) range7.
Proof. intros. unfold range7. repeat constructor; lia. Qed.

(** The body of [get_calendar_context] on a day whose three weeks lie
    inside the range of [datetime]. *)
Lemma calendar_text_of_correct (today : datetime) :
  let monday := toordinal today - weekday today in
  8 <= monday -> monday + 13 <= _MAXORDINAL ->
  exists prev current next,
    calendar_text_of today = Returns (calendar_layout today prev current next)
    /\ week_entries (monday - 7) prev
    /\ week_entries monday current
    /\ week_entries (monday + 7) next.
Proof.
  intros monday Hlo Hhi.
  assert (Hmon : (monday + 6) mod 7 = 0).
  { subst monday. unfold weekday. Z.to_euclidean_division_equations. lia. }
  unfold calendar_text_of, sub_days.
  destruct (add_days_correct today (- weekday today)) as [cur [-> [_ Hcur]]];
    [fold monday; unfold _MAXORDINAL in *; lia|].
  replace (toordinal today + - weekday today) with monday in Hcur by (subst monday; lia).
  destruct (add_days_correct cur (Z.opp 7)) as [prv [-> [_ Hprv]]];
    [unfold _MAXORDINAL in *; lia|].
  destruct (add_days_correct cur 7) as [nxt [-> [_ Hnxt]]];
    [unfold _MAXORDINAL in *; lia|].
  rewrite Hcur in Hprv, Hnxt.
  set (t0 := (lit "Current date: " ++ _ ++ newline ++ newline)
             ++ lit "Previous week:" ++ newline).
  destruct (add_week_lines_correct prv range7) with (calendar_text := t0)
    as [prev [-> Hprev]];
    [apply range7_in_week; unfold _MAXORDINAL in *; lia|].
  set (t1 := (t0 ++ week_lines prev) ++ newline ++ lit "Current week:" ++ newline).
  destruct (add_week_lines_correct cur range7) with (calendar_text := t1)
    as [current [-> Hcurrent]];
    [apply range7_in_week; unfold _MAXORDINAL in *; lia|].
  set (t2 := (t1 ++ week_lines current) ++ newline ++ lit "Next week:" ++ newline).
  destruct (add_week_lines_correct nxt range7) with (calendar_text := t2)
    as [next [-> Hnext]];
    [apply range7_in_week; unfold _MAXORDINAL in *; lia|].
  exists prev, current, next. split; [|split; [|split]].
  - subst t2 t1 t0. unfold calendar_layout.
    now rewrite <- !app_assoc.
  - apply week_entries_of_monday.
    + Z.to_euclidean_division_equations. lia.
    + eapply Forall2_impl; [|exact Hprev]. cbv beta. intros i d [? ?]. split; [assumption | lia].
  - apply week_entries_of_monday; [exact Hmon|].
    eapply Forall2_impl; [|exact Hcurrent]. cbv beta. intros i d [? ?]. split; [assumption | lia].
  - apply week_entries_of_monday.
    + Z.to_euclidean_division_equations. lia.
    + eapply Forall2_impl; [|exact Hnext]. cbv beta. intros i d [? ?]. split; [assumption | lia].
Qed.

End CalendarFacts.

(* ------------------------------------------------------------------ *)
(** * Runs of the handlers *)

Section HandlerFacts.
Import PyStr PyExc PyDatetime Bot.

(** *** Stepping through [bind] and [try_except] *)

Lemma bind_returns {A B} (m : M A) (k : A -> M B) w n t c a :
  m w n = Run t c (Returns a) ->
  bind m k w n
  = Run (t ++ trace (k a w c)) (calls (k a w c)) (outcome (k a w c)).
Proof. intros H. unfold bind. now rewrite H. Qed.

Lemma bind_raises {A B} (m : M A) (k : A -> M B) w n t c e :
  m w n = Run t c (Raises e) -> bind m k w n = Run t c (Raises e).
Proof. intros H. unfold bind. now rewrite H. Qed.

Lemma try_except_returns {A} (body : M A) handler w n t c a :
  body w n = Run t c (Returns a) ->
  try_except body handler w n = Run t c (Returns a).
Proof. intros H. unfold try_except. now rewrite H. Qed.

Lemma try_except_raises {A} (body : M A) handler w n t c e :
  body w n = Run t c (Raises e) ->
  try_except body handler w n
  = Run (t ++ trace (handler e w c)) (calls (handler e w c))
        (outcome (handler e w c)).
Proof. intros H. unfold try_except. now rewrite H. Qed.

(** Every run of [parse_and_polish_message], by what the clock and the
    completion service give. *)
Lemma parse_and_polish_message_run (user_message : str) (w : world) (n : nat) :
  parse_and_polish_message user_message w n =
  match calendar_text_of (clock w) with
  | Raises e => Run [] n (Raises e)
  | Returns calendar_context =>
    let request := completion_request calendar_context user_message in
    match chat_completions_create w n request with
    | Raises e =>
      Run [CreateCompletion request (Raises e); parse_error_line e] (S n)
          (Returns [user_message])
    | Returns response =>
      match choices response with
      | [] =>
        Run [CreateCompletion request (Returns response);
             parse_error_line index_error] (S n) (Returns [user_message])
      | c :: _ =>
        match choice_content c with
        | None =>
          Run [CreateCompletion request (Returns response);
               parse_error_line no_strip_error] (S n) (Returns [user_message])
        | Some text =>
          Run [CreateCompletion request (Returns response)] (S n)
              (Returns (split_reminders (strip text)))
        end
      end
    end
  end.
Proof.
  unfold parse_and_polish_message, get_calendar_context.
  destruct (calendar_text_of (clock w)) as [calendar_context|e] eqn:Hcal.
  - erewrite bind_returns
      by (erewrite bind_returns by reflexivity; unfold lift; rewrite Hcal; reflexivity).
    cbn [app trace calls outcome]. cbv zeta.
    set (request := completion_request calendar_context user_message).
    destruct (chat_completions_create w n request) as [response|e] eqn:Hc.
    + destruct (choices response) as [|c rest] eqn:Hch.
      * erewrite try_except_raises
          by (erewrite bind_returns
                by (unfold create_completion; rewrite Hc; reflexivity);
              unfold first_choice_content; rewrite Hch; reflexivity).
        reflexivity.
      * destruct (choice_content c) as [text|] eqn:Htext.
        -- erewrite try_except_returns
             by (erewrite bind_returns
                   by (unfold create_completion; rewrite Hc; reflexivity);
                 unfold first_choice_content; rewrite Hch, Htext; reflexivity).
           reflexivity.
        -- erewrite try_except_raises
             by (erewrite bind_returns
                   by (unfold create_completion; rewrite Hc; reflexivity);
                 unfold first_choice_content; rewrite Hch, Htext; reflexivity).
           reflexivity.
    + erewrite try_except_raises
        by (erewrite bind_raises
              by (unfold create_completion; rewrite Hc; reflexivity);
            reflexivity).
      reflexivity.
  - erewrite bind_raises
      by (erewrite bind_returns by reflexivity; unfold lift; rewrite Hcal; reflexivity).
    reflexivity.
Qed.

Lemma guarded_delete_run (line : str) (chat message : Z) (w : world) (n : nat) :
  try_except (delete_message chat message)
             (fun e => logger_error (line ++ exc_str e)) w n
  = Run (deletion_events line chat message (bot_delete_message w n chat message))
        (S n) (Returns tt).
Proof.
  unfold try_except, delete_message, logger_error, deletion_events. cbn.
  destruct (bot_delete_message w n chat message) as [[]|e]; reflexivity.
Qed.

(** The loop sends nothing but reminders (whatever the platform
    answers). *)
Lemma send_reminders_only_sends (chat : Z) (reminders : list str) (w : world) :
  forall n, forallb is_send (trace (send_reminders chat reminders w n)) = true.
Proof.
  induction reminders as [|r rs IH]; intros n; [reflexivity|].
  unfold send_reminders in *. cbn [for_each]. unfold bind, send_message. cbn.
  destruct (bot_send_message w n chat r (Some keyboard)); cbn; [apply IH | reflexivity].
Qed.

(** When the platform accepts them, the loop sends one message per
    reminder, in order, each with the keyboard. *)
Lemma send_reminders_run (chat : Z) (reminders : list str) (w : world) :
  sends_accepted w ->
  forall n,
    send_reminders chat reminders w n
    = Run (map (fun reminder =>
                  SendMessage chat reminder (Some keyboard) (Returns tt))
               reminders)
          (n + List.length reminders) (Returns tt).
Proof.
  intros Hw. induction reminders as [|r rs IH]; intros n.
  - cbn. now rewrite Nat.add_0_r.
  - unfold send_reminders in *. cbn [for_each]. unfold bind, send_message.
    cbn. rewrite Hw. cbn. rewrite IH. cbn. f_equal. lia.
Qed.

(** [handle_message] is its three steps in a row. *)
Lemma handle_message_run (update : Update) (m : Message) (w : world) (n : nat) :
  update_message update = Some m ->
  handle_message update w n =
  let deleted :=
    deletion_events delete_error_line (chat_id m) (message_id m)
                    (bot_delete_message w n (chat_id m) (message_id m)) in
  let parsed := parse_and_polish_message (message_text m) w (S n) in
  match outcome parsed with
  | Returns reminders =>
    let sent := send_reminders (chat_id m) reminders w (calls parsed) in
    Run (deleted ++ trace parsed ++ trace sent) (calls sent) (outcome sent)
  | Raises e => Run (deleted ++ trace parsed) (calls parsed) (Raises e)
  end.
Proof.
  intros Hm. unfold handle_message. rewrite Hm.
  erewrite bind_returns by reflexivity. cbn [app].
  erewrite bind_returns by (fold delete_error_line; apply guarded_delete_run).
  cbv zeta.
  destruct (parse_and_polish_message (message_text m) w (S n))
    as [t c [reminders|e]] eqn:Hp.
  - erewrite bind_returns by exact Hp. reflexivity.
  - erewrite bind_raises by exact Hp. reflexivity.
Qed.

(** [button_callback] on a callback query that still has its message. *)
Lemma button_callback_run (query : str) (data : option str) (m : Message)
    (w : world) (n : nat) :
  button_callback (callback_update query data (Some m)) w n =
  match bot_answer_callback_query w n query with
  | Returns _ =>
    Run (AnswerCallbackQuery query (Returns tt)
         :: deletion_events button_error_line (chat_id m) (message_id m)
              (bot_delete_message w (S n) (chat_id m) (message_id m)))
        (S (S n)) (Returns tt)
  | Raises e => Run [AnswerCallbackQuery query (Raises e)] (S n) (Raises e)
  end.
Proof.
  unfold button_callback, callback_update.
  cbn [update_callback_query].
  erewrite bind_returns by reflexivity. cbn [app query_id query_message].
  destruct (bot_answer_callback_query w n query) as [[]|e] eqn:Ha.
  - erewrite bind_returns by (unfold answer; rewrite Ha; reflexivity).
    fold button_error_line. unfold message_delete.
    assert (H : (m0 <- attribute (Some m) "delete";;
                 delete_message (chat_id m0) (message_id m0))
                = delete_message (chat_id m) (message_id m)).
    { unfold attribute, bind, ret, delete_message. reflexivity. }
    rewrite H, guarded_delete_run. reflexivity.
  - erewrite bind_raises by (unfold answer; rewrite Ha; reflexivity).
    reflexivity.
Qed.

End HandlerFacts.

(** Case analysis on a run of [parse_and_polish_message]: the answer has
    no choice, a choice with a text, a choice with no text, the call
    raised, the calendar context raised. *)
Ltac parse_cases :=
  rewrite parse_and_polish_message_run;
  destruct (Bot.calendar_text_of _) as [?calendar_context|?e];
  [ cbv zeta;
    destruct (Bot.chat_completions_create _ _ _) as [?response|?e];
    [ destruct (Bot.choices _) as [|?c ?rest];
      [ | destruct (Bot.choice_content _) as [?text|] ] | ] | ].

(* ------------------------------------------------------------------ *)
(** * Parsing: fallback and splitting *)

Section ParsingClaims.
Import PyStr PyExc PyDatetime Bot.

(** C1.  If the invocation of the completion service raises, then
    [parse_and_polish_message] returns a list of exactly one item, the
    text it was given, unchanged.  The invocation is the
    [CreateCompletion] event of the run. *)
Theorem parse_falls_back_to_input
    (user_message : str) (w : world) (n : nat)
    (request : CompletionRequest) (e : py_exception) :
  In (CreateCompletion request (Raises e))
     (trace (parse_and_polish_message user_message w n)) ->
  outcome (parse_and_polish_message user_message w n)
  = Returns [user_message].
Proof.
  rewrite parse_and_polish_message_run.
  destruct (calendar_text_of (clock w)) as [calendar_context|e0];
    [|intros []].
  cbv zeta.
  destruct (chat_completions_create w n _) as [response|e1]; [|reflexivity].
  destruct (choices response) as [|c rest]; [reflexivity|].
  destruct (choice_content c) as [text|]; [|reflexivity].
  intros [H|[]]. discriminate H.
Qed.

Lemma parse_falls_back_to_input_witness :
  In (CreateCompletion
        (completion_request sample_context (message_text sample_message))
        (Raises connection_error))
     (trace (parse_and_polish_message (message_text sample_message)
               (sample_world (Raises connection_error)) 0))
  /\ outcome (parse_and_polish_message (message_text sample_message)
                (sample_world (Raises connection_error)) 0)
     = Returns [message_text sample_message].
Proof.
  assert (H : In (CreateCompletion
                    (completion_request sample_context
                                        (message_text sample_message))
                    (Raises connection_error))
                 (trace (parse_and_polish_message (message_text sample_message)
                           (sample_world (Raises connection_error)) 0))).
  { vm_compute. left. reflexivity. }
  split; [exact H|].
  exact (parse_falls_back_to_input _ _ _ _ _ H).
Defined.


(** The second example of the prompt splits into its two reminders. *)
Example split_reminders_sample :
  split_reminders (strip sample_blob)
  = [ lit "Order the meds";
      lit "Make tax report" ++ newline ++ newline ++ lit "do by April 15, 2026" ].
Proof. vm_compute. reflexivity. Qed.

(** A text of delimiters and whitespace gives no reminder. *)
Lemma split_reminders_of_delimiters (blob : str) :
  delimiters_and_whitespace blob -> split_reminders (strip blob) = [].
Proof.
  intros H. unfold split_reminders, split.
  rewrite filter_stripped_whitespace; [reflexivity|].
  apply dw_split_scan; [now apply dw_strip | lia].
Qed.

End ParsingClaims.

(* ------------------------------------------------------------------ *)
(** * The calendar context *)

Section CalendarClaims.
Import PyStr PyExc PyDatetime Bot.
Local Open Scope Z_scope.

(** C3, as the code has it.  Let [monday] be the ordinal of the Monday
    of the week of [now].  When the three weeks around [now] lie inside
    the range of [datetime] (the Monday before is at least 0001-01-01 and
    the Sunday after next is at most 9999-12-31),
    [get_calendar_context] returns the text with 7 entries for the
    previous week, 7 for the current week and 7 for the next week, 21 in
    all; entry [i] of a week is a date of the calendar [i] days after the
    Monday that starts it, and is labelled with the name of weekday [i]
    (Monday for 0, Sunday for 6); [now] falls in the current week.  The
    function makes no outside call and its result depends on the clock
    alone. *)
Theorem get_calendar_context_three_weeks (w : world) (n : nat) :
  let now := clock w in
  let monday := toordinal now - weekday now in
  8 <= monday -> monday + 13 <= _MAXORDINAL ->
  (exists prev current next,
      get_calendar_context w n
      = Run [] n (Returns (calendar_layout now prev current next))
      /\ week_entries (monday - 7) prev
      /\ week_entries monday current
      /\ week_entries (monday + 7) next
      /\ List.length (prev ++ current ++ next) = 21%nat)
  /\ monday <= toordinal now <= monday + 6
  /\ (forall w' n', clock w' = now ->
        outcome (get_calendar_context w' n')
        = outcome (get_calendar_context w n)).
Proof.
  intros now monday Hlo Hhi.
  destruct (calendar_text_of_correct now Hlo Hhi)
    as [prev [current [next [Htext [Hp [Hc Hn]]]]]].
  split; [|split].
  - exists prev, current, next. split.
    + unfold get_calendar_context, bind, datetime_now, lift.
      cbn [outcome trace calls app]. fold now. rewrite Htext. reflexivity.
    + repeat (split; [assumption|]).
      rewrite !length_app.
      rewrite <- (Forall2_length Hp), <- (Forall2_length Hc),
        <- (Forall2_length Hn). reflexivity.
  - pose proof (weekday_range (clock w)) as Hwd. subst monday now. lia.
  - intros w' n' Hclock.
    unfold get_calendar_context, bind, datetime_now, lift.
    cbn [outcome trace calls app]. rewrite Hclock. reflexivity.
Qed.

Lemma get_calendar_context_three_weeks_witness :
  (exists prev current next,
      get_calendar_context (sample_world (Raises connection_error)) 0%nat
      = Run [] 0%nat (Returns (calendar_layout sample_now prev current next))
      /\ week_entries (739628 - 7) prev
      /\ week_entries 739628 current
      /\ week_entries (739628 + 7) next
      /\ List.length (prev ++ current ++ next) = 21%nat)
  /\ 739628 <= toordinal sample_now <= 739628 + 6.
Proof.
  destruct (get_calendar_context_three_weeks
              (sample_world (Raises connection_error)) 0%nat)
    as [Hweeks [Hnow _]]; [vm_compute; discriminate .. |].
  split; [exact Hweeks | exact Hnow].
Defined.

(** The example of the claim: on Wednesday 2026-01-14 the current week
    starts on Monday 2026-01-12. *)
Example calendar_context_on_sample_now :
  calendar_text_of sample_now
  = Returns (join newline (map lit [
      "Current date: Wednesday, January 14, 2026";
      "";
      "Previous week:";
      "  Monday: January 05, 2026";
      "  Tuesday: January 06, 2026";
      "  Wednesday: January 07, 2026";
      "  Thursday: January 08, 2026";
      "  Friday: January 09, 2026";
      "  Saturday: January 10, 2026";
      "  Sunday: January 11, 2026";
      "";
      "Current week:";
      "  Monday: January 12, 2026";
      "  Tuesday: January 13, 2026";
      "  Wednesday: January 14, 2026";
      "  Thursday: January 15, 2026";
      "  Friday: January 16, 2026";
      "  Saturday: January 17, 2026";
      "  Sunday: January 18, 2026";
      "";
      "Next week:";
      "  Monday: January 19, 2026";
      "  Tuesday: January 20, 2026";
      "  Wednesday: January 21, 2026";
      "  Thursday: January 22, 2026";
      "  Friday: January 23, 2026";
      "  Saturday: January 24, 2026";
      "  Sunday: January 25, 2026";
      ""]%string)).
Proof. vm_compute. reflexivity. Qed.

(** C3 as stated fails on the first day [datetime] can hold: 0001-01-01
    is a Monday, the week before it has no date, and the subtraction of
    seven days raises [OverflowError]. *)
Lemma get_calendar_context_overflows_at_date_min :
  let now := mk_datetime 1 1 1 0 0 0 0 in
  let w := {| clock := now;
              bot_delete_message := fun _ _ _ => Returns tt;
              chat_completions_create := fun _ _ => Raises connection_error;
              bot_send_message := fun _ _ _ _ => Returns tt;
              bot_answer_callback_query := fun _ _ => Returns tt |} in
  valid_date now = true
  /\ weekday now = 0
  /\ outcome (exec get_calendar_context w)
     = Raises (PyException (lit "OverflowError")
                           (lit "date value out of range")).
Proof. vm_compute. repeat split; reflexivity. Qed.

End CalendarClaims.

(* ------------------------------------------------------------------ *)
(** * The handlers *)

Section HandlerClaims.
Import PyStr PyExc PyDatetime Bot.

Lemma parse_trace_no_send (user_message : str) (w : world) (n : nat) :
  filter is_send (trace (parse_and_polish_message user_message w n)) = [].
Proof. parse_cases; reflexivity. Qed.

Lemma parse_trace_no_delete (user_message : str) (w : world) (n : nat) :
  forallb (fun ev => negb (is_delete ev))
          (trace (parse_and_polish_message user_message w n)) = true.
Proof. parse_cases; reflexivity. Qed.

Lemma deletion_events_no_send line chat message r :
  filter is_send (deletion_events line chat message r) = [].
Proof. destruct r; reflexivity. Qed.

Lemma filter_all {A} (f : A -> bool) (l : list A) :
  forallb f l = true -> filter f l = l.
Proof.
  induction l as [|a l IH]; simpl; [reflexivity|].
  destruct (f a); simpl; [|discriminate]. intros H. now rewrite IH.
Qed.

Lemma sends_are_not_deletes (t : list event) :
  forallb is_send t = true ->
  forallb (fun ev => negb (is_delete ev)) t = true.
Proof.
  induction t as [|ev t IH]; simpl; [reflexivity|].
  destruct ev; simpl; try discriminate. exact IH.
Qed.

(** Neither parsing nor sending looks at how deletions fare. *)
Lemma parse_ignores_deletions user_message w delete n :
  parse_and_polish_message user_message (with_delete w delete) n
  = parse_and_polish_message user_message w n.
Proof. now rewrite !parse_and_polish_message_run. Qed.

Lemma send_reminders_ignores_deletions chat reminders w delete :
  forall n, send_reminders chat reminders (with_delete w delete) n
            = send_reminders chat reminders w n.
Proof.
  induction reminders as [|r rs IH]; intros n; [reflexivity|].
  unfold send_reminders in *. cbn [for_each]. unfold bind.
  change (send_message chat r (Some keyboard) (with_delete w delete) n)
    with (send_message chat r (Some keyboard) w n).
  destruct (outcome (send_message chat r (Some keyboard) w n)); [|reflexivity].
  now rewrite IH.
Qed.





End HandlerClaims.

Section DeletionClaims.
Import PyStr PyExc PyDatetime Bot.

(** C6.  Take any world and make the deletion fail with [e].  Then
    [handle_message] attempts the deletion once, logs the failure, and
    goes on exactly as in the world where the deletion succeeds: the
    events after the deletion (the completion call and every send) and
    the result are the same, none of them is another deletion, so the
    failure is neither retried nor shown to the user.  In
    [button_callback] the failed deletion is logged and the handler
    returns normally without sending anything. *)
Theorem failed_deletion_is_logged_and_skipped
    (w : world) (update : Update) (m : Message) (e : py_exception) :
  update_message update = Some m ->
  let failing := with_delete w (fun _ _ _ => Raises e) in
  let working := with_delete w (fun _ _ _ => Returns tt) in
  (exists rest,
      trace (exec (handle_message update) failing)
      = DeleteMessage (chat_id m) (message_id m) (Raises e)
        :: LogError (delete_error_line ++ exc_str e) :: rest
      /\ trace (exec (handle_message update) working)
         = DeleteMessage (chat_id m) (message_id m) (Returns tt) :: rest
      /\ forallb (fun ev => negb (is_delete ev)) rest = true)
  /\ outcome (exec (handle_message update) failing)
     = outcome (exec (handle_message update) working)
  /\ (forall n query data,
        bot_answer_callback_query w n query = Returns tt ->
        button_callback (callback_update query data (Some m)) failing n
        = Run [AnswerCallbackQuery query (Returns tt);
               DeleteMessage (chat_id m) (message_id m) (Raises e);
               LogError (button_error_line ++ exc_str e)]
              (S (S n)) (Returns tt)).
Proof.
  intros Hm failing working. unfold exec.
  rewrite (handle_message_run update m failing 0 Hm).
  rewrite (handle_message_run update m working 0 Hm).
  cbv zeta. subst failing working. rewrite !parse_ignores_deletions.
  cbn [bot_delete_message with_delete deletion_events].
  destruct (parse_and_polish_message (message_text m) w 1)
    as [t c [reminders|e']] eqn:Hp; cbn [outcome trace calls].
  - rewrite !send_reminders_ignores_deletions. split; [|split].
    + eexists. split; [reflexivity|]. split; [reflexivity|].
      rewrite forallb_app. apply andb_true_iff. split.
      * pose proof (parse_trace_no_delete (message_text m) w 1) as H.
        now rewrite Hp in H.
      * apply sends_are_not_deletes, send_reminders_only_sends.
    + reflexivity.
    + intros n query data Ha. rewrite button_callback_run.
      cbn [bot_answer_callback_query with_delete]. rewrite Ha. reflexivity.
  - split; [|split].
    + eexists. split; [reflexivity|]. split; [reflexivity|].
      pose proof (parse_trace_no_delete (message_text m) w 1) as H.
      now rewrite Hp in H.
    + reflexivity.
    + intros n query data Ha. rewrite button_callback_run.
      cbn [bot_answer_callback_query with_delete]. rewrite Ha. reflexivity.
Qed.

Lemma failed_deletion_is_logged_and_skipped_witness :
  let w := sample_world (Returns (completion_of sample_blob)) in
  let update := message_update sample_message in
  let failing := with_delete w (fun _ _ _ => Raises bad_request) in
  let working := with_delete w (fun _ _ _ => Returns tt) in
  (exists rest,
      trace (exec (handle_message update) failing)
      = DeleteMessage 7 42 (Raises bad_request)
        :: LogError (delete_error_line ++ exc_str bad_request) :: rest
      /\ trace (exec (handle_message update) working)
         = DeleteMessage 7 42 (Returns tt) :: rest
      /\ forallb (fun ev => negb (is_delete ev)) rest = true)
  /\ outcome (exec (handle_message update) failing)
     = outcome (exec (handle_message update) working).
Proof.
  destruct (failed_deletion_is_logged_and_skipped
              (sample_world (Returns (completion_of sample_blob)))
              (message_update sample_message) sample_message bad_request
              eq_refl) as [Hrest [Hout _]].
  split; [exact Hrest | exact Hout].
Defined.



End DeletionClaims.

Section CallbackClaims.
Import PyStr PyExc PyDatetime Bot.

(** C9.  The callback-query handler is registered with no pattern, so a
    callback query is routed to [button_callback] whatever its data
    (none included), and [button_callback] does not read the data: two
    callback queries that differ in their data only give the same events,
    the same count of outside calls and the same result.  On a query
    that still has its message the handler acknowledges, then attempts
    one deletion. *)
Theorem button_callback_ignores_callback_data
    (bot_username : str) (w : world) (n : nat) (query : str)
    (message : option Message) (data data' : option str) :
  select_handler bot_username start_bot (callback_update query data message)
  = Some (CallbackQueryHandler None button_callback)
  /\ button_callback (callback_update query data message) w n
     = button_callback (callback_update query data' message) w n
  /\ forall m, message = Some m ->
       button_callback (callback_update query data message) w n
       = match bot_answer_callback_query w n query with
         | Returns _ =>
           Run (AnswerCallbackQuery query (Returns tt)
                :: deletion_events button_error_line (chat_id m) (message_id m)
                     (bot_delete_message w (S n) (chat_id m) (message_id m)))
               (S (S n)) (Returns tt)
         | Raises e => Run [AnswerCallbackQuery query (Raises e)] (S n) (Raises e)
         end.
Proof.
  split; [reflexivity|]. split; [reflexivity|].
  intros m ->. apply button_callback_run.
Qed.

Lemma button_callback_ignores_callback_data_witness :
  button_callback
    (callback_update (lit "q1") (Some (lit "anything else"))
                     (Some sample_message))
    (sample_world (Raises connection_error)) 0
  = Run [AnswerCallbackQuery (lit "q1") (Returns tt);
         DeleteMessage 7 42 (Returns tt)] 2 (Returns tt).
Proof.
  exact (proj2 (proj2 (button_callback_ignores_callback_data
                         (lit "reminder_bot")
                         (sample_world (Raises connection_error)) 0 (lit "q1")
                         (Some sample_message) (Some (lit "anything else"))
                         None))
               sample_message eq_refl).
Defined.

End CallbackClaims.

(* ------------------------------------------------------------------ *)
(** * The health endpoint *)

Section HealthClaims.
Import PyStr PyExc PyDatetime Bot.

(** C8, as the code has it.  Whatever updates and requests the process
    has handled so far, a GET request for [/health] on port 8080 is
    answered with status 200 and body OK, and leaves the state of the
    listener as it was. *)
Theorem health_check_always_ok (inputs : list Input) (request : Request) :
  http_method request = lit "GET" ->
  http_path request = lit "/health" ->
  main_step (main inputs) (HttpRequest 8080 request)
  = (main inputs, Some {| status := 200; body := lit "OK" |}).
Proof.
  intros Hmethod Hpath. unfold main_step.
  change (8080 =? site_port start_health_server)%Z with true.
  unfold handle_request, start_health_server, add_get.
  cbn [site_router app find]. unfold route_matches.
  cbn [route_path route_method]. rewrite Hmethod, Hpath. reflexivity.
Qed.

Lemma health_check_always_ok_witness :
  main_step
    (main [TelegramUpdate (lit "reminder_bot") (message_update sample_message)
             (sample_world (Raises connection_error))])
    (HttpRequest 8080 {| http_method := lit "GET"; http_path := lit "/health" |})
  = (main [TelegramUpdate (lit "reminder_bot") (message_update sample_message)
             (sample_world (Raises connection_error))],
     Some {| status := 200; body := lit "OK" |}).
Proof.
  apply (health_check_always_ok
           [TelegramUpdate (lit "reminder_bot") (message_update sample_message)
              (sample_world (Raises connection_error))]
           {| http_method := lit "GET"; http_path := lit "/health" |});
    reflexivity.
Defined.

(** C8 as stated fails for a request to [/health] that is not a GET:
    the route is added with [add_get], and a POST is answered 405. *)
Lemma health_path_post_is_refused :
  main_step (main [])
    (HttpRequest 8080 {| http_method := lit "POST"; http_path := lit "/health" |})
  = (main [],
     Some {| status := 405; body := lit "405: Method Not Allowed" |}).
Proof. vm_compute. reflexivity. Qed.

End HealthClaims.

(* ------------------------------------------------------------------ *)
(** * An answer with no reminder in it *)

Section EmptyAnswerClaims.
Import PyStr PyExc PyDatetime Bot.

(** C10.  When the completion service answers with a text made of
    [---] delimiters and whitespace only, [parse_and_polish_message]
    returns the empty list; [handle_message], having deleted the
    original message, then sends nothing, logs nothing and returns
    normally: its whole trace is the deletion and the completion call. *)
Theorem delimiter_only_answer_discards_message
    (w : world) (update : Update) (m : Message)
    (calendar_context blob : str) (response : ChatCompletion)
    (others : list Choice) :
  update_message update = Some m ->
  bot_delete_message w 0 (chat_id m) (message_id m) = Returns tt ->
  calendar_text_of (clock w) = Returns calendar_context ->
  chat_completions_create w 1
    (completion_request calendar_context (message_text m))
  = Returns response ->
  choices response = {| choice_content := Some blob |} :: others ->
  delimiters_and_whitespace blob ->
  outcome (parse_and_polish_message (message_text m) w 1) = Returns []
  /\ exec (handle_message update) w
     = Run [DeleteMessage (chat_id m) (message_id m) (Returns tt);
            CreateCompletion
              (completion_request calendar_context (message_text m))
              (Returns response)]
           2 (Returns tt).
Proof.
  intros Hm Hdel Hcal Hc Hch Hblob.
  assert (Hp : parse_and_polish_message (message_text m) w 1
               = Run [CreateCompletion
                        (completion_request calendar_context (message_text m))
                        (Returns response)] 2 (Returns [])).
  { rewrite parse_and_polish_message_run, Hcal. cbv zeta.
    rewrite Hc, Hch. cbn [choice_content].
    now rewrite (split_reminders_of_delimiters blob Hblob). }
  split; [now rewrite Hp|].
  unfold exec. rewrite (handle_message_run update m w 0 Hm). cbv zeta.
  rewrite Hp, Hdel. reflexivity.
Qed.

Lemma delimiter_only_answer_discards_message_witness :
  let blob := lit " --- " ++ newline ++ lit "---" in
  let w := sample_world (Returns (completion_of blob)) in
  delimiters_and_whitespace blob
  /\ outcome (parse_and_polish_message (message_text sample_message) w 1)
     = Returns []
  /\ exec (handle_message (message_update sample_message)) w
     = Run [DeleteMessage 7 42 (Returns tt);
            CreateCompletion
              (completion_request sample_context (message_text sample_message))
              (Returns (completion_of blob))]
           2 (Returns tt).
Proof.
  intros blob w.
  assert (Hblob : delimiters_and_whitespace blob).
  { apply dw_space; [reflexivity|]. apply dw_delimiter.
    apply dw_space; [reflexivity|]. apply dw_space; [reflexivity|].
    exact (dw_delimiter dw_empty). }
  split; [exact Hblob|].
  apply (delimiter_only_answer_discards_message w
           (message_update sample_message) sample_message sample_context blob
           (completion_of blob) []);
    try reflexivity; exact Hblob.
Defined.

End EmptyAnswerClaims.

(* ------------------------------------------------------------------ *)
(** * Further properties: the splitter *)

Section SplitFacts.
Import PyStr.

Variable sep : str.
Hypothesis sep_nonempty : sep <> [].

Lemma split_nil : split sep [] = [[]].
Proof. reflexivity. Qed.

Lemma split_cons_match (c : codepoint) (s rest : str) :
  match_prefix sep (c :: s) = Some rest ->
  split sep (c :: s) = [] :: split sep rest.
Proof.
  intros E. unfold split at 1. cbn [List.length split_scan]. rewrite E.
  f_equal. apply split_scan_enough_fuel; [exact sep_nonempty|].
  pose proof (match_prefix_shorter _ _ _ sep_nonempty E) as H.
  simpl in H. lia.
Qed.

Lemma split_cons_nomatch (c : codepoint) (s : str) :
  match_prefix sep (c :: s) = None ->
  split sep (c :: s)
  = match split sep s with
    | p :: ps => (c :: p) :: ps
    | [] => [[c]]
    end.
Proof.
  intros E. unfold split at 1. cbn [List.length split_scan]. now rewrite E.
Qed.

Lemma split_nonempty (s : str) : split sep s <> [].
Proof. apply split_scan_nonempty. Qed.

Lemma match_prefix_self (s : str) : match_prefix sep (sep ++ s) = Some s.
Proof.
  clear sep_nonempty. induction sep as [|a p IH]; [reflexivity|].
  simpl. now rewrite N.eqb_refl.
Qed.

Lemma match_prefix_extend (a b x : str) :
  match_prefix sep a = Some x -> match_prefix sep (a ++ b) = Some (x ++ b).
Proof.
  intros H. apply match_prefix_app in H. subst a.
  rewrite <- app_assoc. apply match_prefix_self.
Qed.

(** Splitting a text that starts with the separator. *)
Lemma split_separator_first (s : str) :
  split sep (sep ++ s) = [] :: split sep s.
Proof.
  assert (Hex : exists a p, sep = a :: p).
  { destruct sep as [|a p]; [congruence | eauto]. }
  destruct Hex as [a [p E]].
  assert (Hs : sep ++ s = a :: (p ++ s)) by (rewrite E; reflexivity).
  rewrite Hs. apply split_cons_match. rewrite <- Hs. apply match_prefix_self.
Qed.

(** A stretch with no separator start stays in the first piece. *)
Lemma split_after_prefix (p s : str) :
  no_match_inside sep p s ->
  exists q qs, split sep s = q :: qs /\ split sep (p ++ s) = (p ++ q) :: qs.
Proof.
  induction p as [|c p IH]; intros H.
  - destruct (split sep s) as [|q qs] eqn:E; [now apply split_nonempty in E|].
    exists q, qs. auto.
  - destruct IH as [q [qs [Hs Hp]]].
    { intros a b -> Hb. apply (H (c :: a) b); auto. }
    exists q, qs. split; [exact Hs|].
    cbn [app]. rewrite split_cons_nomatch.
    + now rewrite Hp.
    + apply (H [] (c :: p)); [reflexivity | discriminate].
Qed.

Lemma starts_with_extend (a b : str) :
  starts_with sep a = true -> starts_with sep (a ++ b) = true.
Proof.
  unfold starts_with. destruct (match_prefix sep a) as [x|] eqn:E; [|discriminate].
  now rewrite (match_prefix_extend _ b _ E).
Qed.

Lemma contains_app_l (a b : str) :
  contains sep (a ++ b) = false -> contains sep a = false.
Proof.
  induction a as [|c a IH]; [reflexivity|].
  cbn [app contains]. intros H. apply orb_false_iff in H. destruct H as [H1 H2].
  apply orb_false_iff. split; [|auto].
  destruct (starts_with sep (c :: a)) eqn:E; [|reflexivity].
  apply (starts_with_extend _ b) in E. cbn [app] in E. congruence.
Qed.

Lemma contains_app_r (a b : str) :
  contains sep (a ++ b) = false -> contains sep b = false.
Proof.
  induction a as [|c a IH]; [auto|].
  cbn [app contains]. intros H. apply orb_false_iff in H. tauto.
Qed.

Lemma contains_no_start (s : str) :
  contains sep s = false -> starts_with sep s = false.
Proof.
  destruct s as [|c s].
  - intros _. unfold starts_with. destruct sep; [congruence | reflexivity].
  - cbn [contains]. intros H. apply orb_false_iff in H. tauto.
Qed.

Lemma split_head_prefix (s q : str) (qs : list str) :
  split sep s = q :: qs -> exists tail, s = q ++ tail.
Proof.
  intros H. pose proof (join_split sep s sep_nonempty) as J. rewrite H in J.
  destruct qs; simpl in J.
  - exists []. now rewrite app_nil_r.
  - eexists. symmetry. exact J.
Qed.

(** The pieces of [split] do not contain the separator. *)
Lemma split_pieces_free (n : nat) :
  forall s, List.length s <= n ->
    Forall (fun p => contains sep p = false) (split sep s).
Proof.
  induction n as [|n IH]; intros s Hlen.
  - destruct s; [|simpl in Hlen; lia]. repeat constructor.
  - destruct s as [|c s]; [repeat constructor|]. simpl in Hlen.
    destruct (match_prefix sep (c :: s)) as [rest|] eqn:E.
    + rewrite (split_cons_match _ _ _ E). constructor; [reflexivity|].
      apply IH. pose proof (match_prefix_shorter _ _ _ sep_nonempty E) as H.
      simpl in H. lia.
    + rewrite (split_cons_nomatch _ _ E).
      specialize (IH s ltac:(lia)).
      destruct (split sep s) as [|q qs] eqn:Es; [now apply split_nonempty in Es|].
      inversion IH as [|? ? Hq Hqs]; subst. constructor; [|exact Hqs].
      cbn [contains]. rewrite Hq, orb_false_r.
      destruct (split_head_prefix _ _ _ Es) as [tail ->].
      unfold starts_with.
      destruct (match_prefix sep (c :: q)) as [x|] eqn:Ex; [|reflexivity].
      apply (match_prefix_extend _ tail) in Ex. cbn [app] in Ex. congruence.
Qed.

End SplitFacts.

Section DelimiterSplitting.
Import PyStr PyExc PyDatetime Bot.

Lemma delimiter_nonempty : delimiter <> [].
Proof. discriminate. Qed.

(** Whether a text starts with the delimiter depends on its first three
    characters. *)
Lemma starts_with_delimiter (s : str) :
  starts_with delimiter s
  = match s with
    | a :: b :: c :: _ => (45 =? a)%N && (45 =? b)%N && (45 =? c)%N
    | _ => false
    end.
Proof.
  unfold starts_with, delimiter.
  change (lit "---") with [45%N; 45%N; 45%N].
  destruct s as [|a [|b [|c s]]]; cbn [match_prefix].
  - reflexivity.
  - now destruct (45 =? a)%N.
  - destruct (45 =? a)%N; [|reflexivity]. now destruct (45 =? b)%N.
  - destruct (45 =? a)%N; [|reflexivity].
    destruct (45 =? b)%N; [|reflexivity]. now destruct (45 =? c)%N.
Qed.

Lemma no_start_no_match (s : str) :
  starts_with delimiter s = false -> match_prefix delimiter s = None.
Proof. unfold starts_with. now destruct (match_prefix delimiter s). Qed.

(** A text that does not start with the delimiter still does not when
    followed by a character that is not a hyphen. *)
Lemma no_start_before_other (b : str) (c : codepoint) (s : str) :
  c <> 45%N ->
  starts_with delimiter b = false ->
  starts_with delimiter (b ++ c :: s) = false.
Proof.
  intros Hc. rewrite !starts_with_delimiter.
  assert (H45 : (45 =? c)%N = false) by (apply N.eqb_neq; congruence).
  destruct b as [|x [|y [|z b]]]; cbn [app]; intros H.
  - destruct s as [|? [|? ?]]; rewrite ?H45; reflexivity.
  - destruct s as [|? ?]; rewrite ?H45, ?andb_false_r; reflexivity.
  - now rewrite H45, andb_false_r.
  - exact H.
Qed.

Lemma space_is_not_hyphen (c : codepoint) :
  Py_UNICODE_ISSPACE c = true -> c <> 45%N.
Proof. intros H ->. discriminate H. Qed.

Lemma whitespace_no_start (l s : str) :
  whitespace_only l = true -> l <> [] ->
  starts_with delimiter (l ++ s) = false.
Proof.
  intros Hl Hne. destruct l as [|c l]; [congruence|].
  simpl in Hl. apply andb_true_iff in Hl. destruct Hl as [Hc _].
  rewrite starts_with_delimiter. cbn [app].
  rewrite (hyphen_not_space c Hc).
  destruct (l ++ s) as [|? [|? ?]]; reflexivity.
Qed.

Lemma whitespace_suffix (a b l : str) :
  l = a ++ b -> whitespace_only l = true -> whitespace_only b = true.
Proof.
  intros -> H. rewrite whitespace_only_app in H.
  apply andb_true_iff in H. tauto.
Qed.

(** Leading whitespace stays in the first piece. *)
Lemma no_match_inside_whitespace (l s : str) :
  whitespace_only l = true -> no_match_inside delimiter l s.
Proof.
  intros Hl a b E Hb. apply no_start_no_match.
  apply whitespace_no_start; [|exact Hb]. eapply whitespace_suffix; eauto.
Qed.

(** A delimiter-free stretch closed by a character that is not a hyphen
    holds no delimiter start, whatever follows. *)
Lemma no_match_inside_closed (p : str) (c : codepoint) (s : str) :
  contains delimiter p = false -> c <> 45%N ->
  no_match_inside delimiter (p ++ [c]) s.
Proof.
  intros Hp Hc a b E Hb. apply no_start_no_match.
  destruct (exists_last Hb) as [b0 [x Eb]]. subst b.
  rewrite app_assoc in E. apply app_inj_tail in E. destruct E as [E ->].
  rewrite <- app_assoc. cbn [app].
  apply no_start_before_other; [exact Hc|].
  apply contains_no_start; [apply delimiter_nonempty|].
  subst p. eapply contains_app_r. exact Hp.
Qed.

Lemma no_match_inside_free (p : str) :
  contains delimiter p = false -> no_match_inside delimiter p [].
Proof.
  intros Hp a b E Hb. apply no_start_no_match. rewrite app_nil_r.
  apply contains_no_start; [apply delimiter_nonempty|].
  subst p. eapply contains_app_r. exact Hp.
Qed.

Lemma contains_after_whitespace (l s : str) :
  whitespace_only l = true ->
  contains delimiter (l ++ s) = contains delimiter s.
Proof.
  induction l as [|c l IH]; [reflexivity|]. intros H.
  cbn [app contains].
  change (c :: l ++ s) with ((c :: l) ++ s).
  rewrite (whitespace_no_start (c :: l) s H) by discriminate.
  simpl in H. apply andb_true_iff in H. now rewrite IH.
Qed.

(** *** [strip] and surrounding whitespace *)

Lemma lstrip_after_whitespace (l s : str) :
  whitespace_only l = true -> lstrip (l ++ s) = lstrip s.
Proof.
  induction l as [|c l IH]; [reflexivity|]. simpl.
  destruct (Py_UNICODE_ISSPACE c); [exact IH | discriminate].
Qed.

Lemma rstrip_before_whitespace (s r : str) :
  whitespace_only r = true -> rstrip (s ++ r) = rstrip s.
Proof.
  intros H. unfold rstrip. rewrite rev_app_distr.
  rewrite lstrip_after_whitespace; [reflexivity|].
  now rewrite whitespace_only_rev.
Qed.

Lemma lstrip_app (s r : str) :
  lstrip (s ++ r)
  = if whitespace_only s then lstrip r else lstrip s ++ r.
Proof.
  induction s as [|c s IH]; [reflexivity|]. simpl.
  destruct (Py_UNICODE_ISSPACE c); [exact IH | reflexivity].
Qed.

Lemma strip_padded (l s r : str) :
  whitespace_only l = true -> whitespace_only r = true ->
  strip (l ++ s ++ r) = strip s.
Proof.
  intros Hl Hr. unfold strip.
  rewrite (lstrip_after_whitespace l _ Hl), lstrip_app.
  destruct (whitespace_only s) eqn:Hs.
  - rewrite (lstrip_whitespace r Hr), (lstrip_whitespace s Hs). reflexivity.
  - now apply rstrip_before_whitespace.
Qed.

Lemma strip_after_whitespace (l s : str) :
  whitespace_only l = true -> strip (l ++ s) = strip s.
Proof.
  intros Hl. rewrite <- (app_nil_r s) at 1.
  apply (strip_padded l s [] Hl eq_refl).
Qed.

Lemma strip_before_whitespace (s r : str) :
  whitespace_only r = true -> strip (s ++ r) = strip s.
Proof. intros Hr. apply (strip_padded [] s r eq_refl Hr). Qed.

(** Trailing whitespace stays in the last piece. *)
Lemma no_match_before_whitespace (x r : str) :
  whitespace_only r = true ->
  match_prefix delimiter x = None ->
  match_prefix delimiter (x ++ r) = None.
Proof.
  intros Hr Hx. apply no_start_no_match.
  assert (Hs : starts_with delimiter x = false)
    by (unfold starts_with; now rewrite Hx).
  destruct r as [|c r]; [now rewrite app_nil_r|].
  apply no_start_before_other; [|exact Hs].
  simpl in Hr. apply andb_true_iff in Hr. apply space_is_not_hyphen. tauto.
Qed.

Lemma split_before_whitespace (r : str) (n : nat) :
  whitespace_only r = true ->
  forall t, List.length t <= n ->
    exists init last_piece,
      split delimiter t = init ++ [last_piece]
      /\ split delimiter (t ++ r) = init ++ [last_piece ++ r].
Proof.
  intros Hr. induction n as [|n IH]; intros t Hlen.
  - destruct t; [|simpl in Hlen; lia]. exists [], []. split; [reflexivity|].
    destruct (split_after_prefix delimiter r []
                (no_match_inside_whitespace r [] Hr)) as [q [qs [E1 E2]]].
    rewrite split_nil in E1. injection E1 as <- <-.
    cbn [app]. rewrite app_nil_r in E2. exact E2.
  - destruct t as [|c t].
    { apply (IH []). simpl. lia. }
    simpl in Hlen.
    destruct (match_prefix delimiter (c :: t)) as [rest|] eqn:E.
    + pose proof (match_prefix_shorter _ _ _ delimiter_nonempty E) as Hs.
      simpl in Hs.
      destruct (IH rest ltac:(lia)) as [init [lp [H1 H2]]].
      exists ([] :: init), lp.
      rewrite (split_cons_match _ delimiter_nonempty _ _ _ E), H1.
      split; [reflexivity|].
      pose proof (match_prefix_extend delimiter _ r _ E) as E'.
      cbn [app] in E'. cbn [app].
      rewrite (split_cons_match _ delimiter_nonempty _ _ _ E'), H2. reflexivity.
    + destruct (IH t ltac:(lia)) as [init [lp [H1 H2]]].
      pose proof (no_match_before_whitespace _ r Hr E) as E'.
      cbn [app] in E'. cbn [app].
      rewrite (split_cons_nomatch _ _ _ E), (split_cons_nomatch _ _ _ E'), H1, H2.
      destruct init as [|i init].
      * exists [], (c :: lp). split; reflexivity.
      * exists ((c :: i) :: init), lp. split; reflexivity.
Qed.

Lemma map_strip_filter (pieces : list str) :
  map strip (filter (fun p => truthy (strip p)) pieces)
  = filter truthy (map strip pieces).
Proof.
  induction pieces as [|p ps IH]; [reflexivity|].
  simpl. destruct (truthy (strip p)); simpl; now rewrite IH.
Qed.

Lemma split_reminders_alt (s : str) :
  split_reminders s = filter truthy (map strip (split delimiter s)).
Proof. unfold split_reminders. apply map_strip_filter. Qed.

(** The pieces of a text and of its [strip] are the same once
    stripped. *)
Lemma stripped_pieces_of_strip (blob : str) :
  map strip (split delimiter (strip blob)) = map strip (split delimiter blob).
Proof.
  destruct (strip_decomp blob) as [l [r [Hb [Hl Hr]]]].
  rewrite Hb at 2.
  destruct (split_before_whitespace r (List.length (strip blob)) Hr
              (strip blob) (le_n _)) as [init [lp [H1 H2]]].
  destruct (split_after_prefix delimiter l (strip blob ++ r)
              (no_match_inside_whitespace l _ Hl)) as [q [qs [E1 E2]]].
  rewrite E2, H1. rewrite H2 in E1.
  destruct init as [|i init]; cbn [app] in E1; injection E1 as <- <-.
  - cbn [app map]. f_equal. symmetry. apply (strip_padded l lp r Hl Hr).
  - cbn [app map]. f_equal.
    + symmetry. apply (strip_after_whitespace l i Hl).
    + rewrite !map_app. f_equal. cbn [map]. f_equal.
      symmetry. apply (strip_before_whitespace lp r Hr).
Qed.

End DelimiterSplitting.

Section SplitterExtras.
Import PyStr PyExc PyDatetime Bot.

Lemma contains_infix (l m r : str) :
  contains delimiter (l ++ m ++ r) = false -> contains delimiter m = false.
Proof.
  intros H. apply contains_app_r in H. now apply contains_app_l in H.
Qed.

Lemma contains_strip (p : str) :
  contains delimiter p = false -> contains delimiter (strip p) = false.
Proof.
  intros H. destruct (strip_decomp p) as [l [r [Hp _]]].
  rewrite Hp in H. now apply contains_infix in H.
Qed.

Lemma split_reminders_outer_strip (blob : str) :
  split_reminders (strip blob) = split_reminders blob.
Proof.
  rewrite !split_reminders_alt. now rewrite stripped_pieces_of_strip.
Qed.

(** X1.  Stripping the whole answer before splitting it changes
    nothing: the reminders are the same with and without the first
    [strip], since every piece is stripped after the split. *)
Theorem strip_before_split_is_redundant (blob : str) :
  split_reminders (strip blob) = split_reminders blob.
Proof. exact (split_reminders_outer_strip blob). Qed.

(** X2.  No reminder contains the delimiter [---], whatever the
    answer of the completion service. *)
Theorem split_reminders_delimiter_free (blob : str) :
  Forall (fun r => contains delimiter r = false)
         (split_reminders (strip blob)).
Proof.
  unfold split_reminders. apply Forall_forall. intros r Hr.
  apply in_map_iff in Hr. destruct Hr as [p [<- Hp]].
  apply filter_In in Hp. destruct Hp as [Hp _].
  apply contains_strip.
  pose proof (split_pieces_free delimiter delimiter_nonempty
                (List.length (strip blob)) (strip blob) (le_n _)) as H.
  rewrite Forall_forall in H. now apply H.
Qed.

Lemma newline_is_space : whitespace_only newline = true.
Proof. reflexivity. Qed.

(** The pieces of a joined list of items, after any leading
    whitespace. *)
Lemma stripped_pieces_of_join (rs : list str) :
  Forall reminder_item rs -> rs <> [] ->
  forall lead, whitespace_only lead = true ->
    map strip (split delimiter (lead ++ join separator_line rs)) = rs.
Proof.
  induction 1 as [|r rs [Hne [Hstrip Hfree]] Hrs IH]; [congruence|].
  intros _ lead Hlead.
  assert (Hlr : contains delimiter (lead ++ r) = false)
    by now rewrite contains_after_whitespace.
  destruct rs as [|r' rs'].
  - cbn [join].
    destruct (split_after_prefix delimiter (lead ++ r) []
                (no_match_inside_free _ Hlr)) as [q [qs [E1 E2]]].
    rewrite split_nil in E1. injection E1 as <- <-.
    rewrite !app_nil_r in E2. rewrite E2. cbn [map].
    rewrite (strip_after_whitespace lead r Hlead), Hstrip.
    reflexivity.
  - change (join separator_line (r :: r' :: rs'))
      with (r ++ separator_line ++ join separator_line (r' :: rs')).
    unfold separator_line at 1.
    replace (lead ++ r ++ (newline ++ delimiter ++ newline)
               ++ join separator_line (r' :: rs'))
      with (((lead ++ r) ++ newline)
              ++ delimiter ++ newline ++ join separator_line (r' :: rs'))
      by (now rewrite <- !app_assoc).
    destruct (split_after_prefix delimiter ((lead ++ r) ++ newline)
                (delimiter ++ newline ++ join separator_line (r' :: rs'))
                (no_match_inside_closed (lead ++ r) 10%N _ Hlr ltac:(discriminate)))
      as [q [qs [E1 E2]]].
    rewrite (split_separator_first delimiter delimiter_nonempty) in E1.
    injection E1 as <- <-. rewrite E2. cbn [map]. f_equal.
    + rewrite app_nil_r, <- app_assoc.
      rewrite (strip_padded lead r newline Hlead newline_is_space).
      exact Hstrip.
    + exact (IH ltac:(discriminate) newline newline_is_space).
Qed.

Lemma split_reminders_join (rs : list str) :
  Forall reminder_item rs ->
  split_reminders (strip (join separator_line rs)) = rs.
Proof.
  intros H. rewrite split_reminders_outer_strip, split_reminders_alt.
  destruct rs as [|r rs]; [reflexivity|].
  pose proof (stripped_pieces_of_join (r :: rs) H ltac:(discriminate) []
                eq_refl) as Hp.
  cbn [app] in Hp. rewrite Hp.
  apply filter_all. apply forallb_forall. intros x Hx.
  rewrite Forall_forall in H. destruct (H x Hx) as [Hne _].
  destruct x; [congruence | reflexivity].
Qed.

(** X3.  Round trip with the format the prompt asks for: reminders that
    are non-empty, trimmed and free of [---], written one after the other
    with a [---] line between them, are given back as they were, in the
    same order. *)
Theorem split_reminders_of_joined_items (rs : list str) :
  Forall reminder_item rs ->
  split_reminders (strip (join separator_line rs)) = rs.
Proof. exact (split_reminders_join rs). Qed.

Lemma split_reminders_of_joined_items_witness :
  Forall reminder_item
    [ lit "Order the meds";
      lit "Make tax report" ++ newline ++ newline ++ lit "do by April 15, 2026" ]
  /\ split_reminders (strip sample_blob)
     = [ lit "Order the meds";
         lit "Make tax report" ++ newline ++ newline
         ++ lit "do by April 15, 2026" ].
Proof.
  assert (H : Forall reminder_item
                [ lit "Order the meds";
                  lit "Make tax report" ++ newline ++ newline
                  ++ lit "do by April 15, 2026" ]).
  { repeat constructor; try discriminate; vm_compute; reflexivity. }
  split; [exact H|].
  exact (split_reminders_of_joined_items _ H).
Defined.

(** X4.  An answer that holds no [---] and is not blank gives exactly
    one reminder, the answer stripped. *)
Theorem split_reminders_single (blob : str) :
  contains delimiter blob = false -> strip blob <> [] ->
  split_reminders (strip blob) = [strip blob].
Proof.
  intros Hfree Hne.
  rewrite <- (strip_idem blob) at 1.
  apply (split_reminders_join [strip blob]).
  repeat constructor; [exact Hne | apply strip_idem | now apply contains_strip].
Qed.

Lemma split_reminders_single_witness :
  contains delimiter (lit "  Study for exam ") = false
  /\ strip (lit "  Study for exam ") <> []
  /\ split_reminders (strip (lit "  Study for exam "))
     = [strip (lit "  Study for exam ")].
Proof.
  assert (H1 : contains delimiter (lit "  Study for exam ") = false)
    by (vm_compute; reflexivity).
  assert (H2 : strip (lit "  Study for exam ") <> [])
    by (vm_compute; discriminate).
  split; [exact H1|]. split; [exact H2|].
  exact (split_reminders_single _ H1 H2).
Defined.

End SplitterExtras.

(* ------------------------------------------------------------------ *)
(** * Further properties: dates and the calendar context *)

(** Evaluates the table lookups and the month tests on a literal
    month, in the goal and the hypotheses. *)
Ltac eval_month_tables :=
  repeat match goal with
  | |- context [PyDatetime.item ?t ?k] =>
    let v := eval vm_compute in (PyDatetime.item t k) in
    change (PyDatetime.item t k) with v
  | |- context [(?a =? ?b)%Z] =>
    let v := eval vm_compute in (a =? b)%Z in
    lazymatch v with true => idtac | false => idtac end;
    change (a =? b)%Z with v
  | |- context [(?a >? ?b)%Z] =>
    let v := eval vm_compute in (a >? b)%Z in
    lazymatch v with true => idtac | false => idtac end;
    change (a >? b)%Z with v
  end; cbn [andb].

Section DateRoundTrip.
Import PyStr PyExc PyDatetime Bot.
Local Open Scope Z_scope.

Lemma days_before_year_next (y : Z) :
  _days_before_year (y + 1)
  = _days_before_year y + (if _is_leap y then 366 else 365).
Proof.
  unfold _days_before_year, _is_leap. cbv zeta.
  destruct (Z.eqb_spec (y mod 4) 0), (Z.eqb_spec (y mod 100) 0),
    (Z.eqb_spec (y mod 400) 0); cbn [andb orb negb];
    Z.to_euclidean_division_equations; lia.
Qed.

Lemma days_before_year_mono (y y' : Z) :
  y <= y' -> _days_before_year y <= _days_before_year y'.
Proof.
  unfold _days_before_year. cbv zeta. intros H.
  Z.to_euclidean_division_equations. lia.
Qed.

Lemma day_of_year_bounds (y m d : Z) :
  1 <= m <= 12 -> 1 <= d <= _days_in_month y m ->
  1 <= _days_before_month y m + d <= (if _is_leap y then 366 else 365).
Proof.
  intros Hm Hd. revert Hd. unfold _days_in_month, _days_before_month.
  assert (Hc : m = 1 \/ m = 2 \/ m = 3 \/ m = 4 \/ m = 5 \/ m = 6 \/ m = 7
               \/ m = 8 \/ m = 9 \/ m = 10 \/ m = 11 \/ m = 12) by lia.
  destruct (_is_leap y);
    repeat (destruct Hc as [->|Hc]); try subst m; eval_month_tables; lia.
Qed.

Lemma valid_date_fields (d : datetime) :
  valid_date d = true ->
  1 <= year d <= 9999 /\ 1 <= month d <= 12
  /\ 1 <= day d <= _days_in_month (year d) (month d).
Proof.
  unfold valid_date, MINYEAR, MAXYEAR. intros H.
  repeat (apply andb_true_iff in H; destruct H as [H ?]).
  repeat match goal with H : (_ <=? _) = true |- _ => apply Z.leb_le in H end.
  lia.
Qed.

(** A date determines its ordinal, and the ordinal the date. *)
Lemma ymd2ord_injective (y m d y' m' d' : Z) :
  1 <= m <= 12 -> 1 <= d <= _days_in_month y m ->
  1 <= m' <= 12 -> 1 <= d' <= _days_in_month y' m' ->
  _ymd2ord y m d = _ymd2ord y' m' d' ->
  y = y' /\ m = m' /\ d = d'.
Proof.
  intros Hm Hd Hm' Hd' E. unfold _ymd2ord in E.
  pose proof (day_of_year_bounds y m d Hm Hd) as B.
  pose proof (day_of_year_bounds y' m' d' Hm' Hd') as B'.
  assert (Hy : y = y').
  { destruct (Z.lt_trichotomy y y') as [Hlt|[Heq|Hgt]]; [|exact Heq|]; exfalso.
    - pose proof (days_before_year_next y) as N.
      pose proof (days_before_year_mono (y + 1) y' ltac:(lia)). lia.
    - pose proof (days_before_year_next y') as N.
      pose proof (days_before_year_mono (y' + 1) y ltac:(lia)). lia. }
  subst y'. split; [reflexivity|].
  assert (E' : _days_before_month y m + d = _days_before_month y m' + d') by lia.
  clear E B B'. revert Hd Hd' E'. unfold _days_in_month, _days_before_month.
  assert (Hc : m = 1 \/ m = 2 \/ m = 3 \/ m = 4 \/ m = 5 \/ m = 6 \/ m = 7
               \/ m = 8 \/ m = 9 \/ m = 10 \/ m = 11 \/ m = 12) by lia.
  assert (Hc' : m' = 1 \/ m' = 2 \/ m' = 3 \/ m' = 4 \/ m' = 5 \/ m' = 6
                \/ m' = 7 \/ m' = 8 \/ m' = 9 \/ m' = 10 \/ m' = 11
                \/ m' = 12) by lia.
  destruct (_is_leap y);
    repeat (destruct Hc as [->|Hc]); try subst m;
    repeat (destruct Hc' as [->|Hc']); try subst m';
    eval_month_tables; lia.
Qed.

Lemma toordinal_bounds (d : datetime) :
  valid_date d = true -> 1 <= toordinal d <= _MAXORDINAL.
Proof.
  intros H. destruct (valid_date_fields d H) as [Hy [Hm Hd]].
  pose proof (day_of_year_bounds _ _ _ Hm Hd) as B.
  pose proof (days_before_year_next (year d)) as N.
  pose proof (days_before_year_mono 1 (year d) ltac:(lia)) as L.
  pose proof (days_before_year_mono (year d + 1) 10000 ltac:(lia)) as U.
  change (_days_before_year 1) with 0 in L.
  change (_days_before_year 10000) with 3652059 in U.
  unfold toordinal, _ymd2ord, _MAXORDINAL.
  destruct (_is_leap (year d)); lia.
Qed.

(** Round trip: the date of the ordinal of a date is that date. *)
Lemma ord2ymd_of_toordinal (d : datetime) :
  valid_date d = true ->
  _ord2ymd (toordinal d) = (year d, month d, day d).
Proof.
  intros H. pose proof (toordinal_bounds d H) as B.
  pose proof (ord2ymd_correct (toordinal d) B) as C.
  destruct (_ord2ymd (toordinal d)) as [[y m] dd].
  destruct C as [_ [Hm [Hd E]]].
  destruct (valid_date_fields d H) as [_ [Hm' Hd']].
  destruct (ymd2ord_injective _ _ _ _ _ _ Hm Hd Hm' Hd' E) as [-> [-> ->]].
  reflexivity.
Qed.

Lemma day_at_toordinal (d : datetime) :
  valid_date d = true -> day_at d (toordinal d) = d.
Proof.
  intros H. unfold day_at. rewrite (ord2ymd_of_toordinal d H).
  now destruct d.
Qed.

End DateRoundTrip.

Section CalendarExtras.
Import PyStr PyExc PyDatetime Bot.
Local Open Scope Z_scope.

Lemma add_days_cases (d : datetime) (k : Z) :
  add_days d k
  = if (0 <? toordinal d + k) && (toordinal d + k <=? _MAXORDINAL)
    then Returns (day_at d (toordinal d + k))
    else Raises overflow_error.
Proof.
  unfold add_days, day_at. cbv zeta.
  destruct ((0 <? toordinal d + k) && (toordinal d + k <=? _MAXORDINAL));
    [|reflexivity].
  now destruct (_ord2ymd (toordinal d + k)) as [[y m] dd].
Qed.

Lemma range_true (o : Z) :
  1 <= o <= _MAXORDINAL -> (0 <? o) && (o <=? _MAXORDINAL) = true.
Proof.
  intros H. apply andb_true_iff. split; [apply Z.ltb_lt | apply Z.leb_le]; lia.
Qed.

Lemma range_false (o : Z) :
  o <= 0 \/ _MAXORDINAL < o -> (0 <? o) && (o <=? _MAXORDINAL) = false.
Proof.
  intros H. apply andb_false_iff.
  destruct H; [left; apply Z.ltb_ge | right; apply Z.leb_gt]; lia.
Qed.

Lemma toordinal_day_at (today : datetime) (o : Z) :
  1 <= o <= _MAXORDINAL -> toordinal (day_at today o) = o.
Proof.
  intros H. pose proof (ord2ymd_correct o H) as C. unfold day_at, toordinal.
  destruct (_ord2ymd o) as [[y m] d]. cbn [year month day]. tauto.
Qed.

Lemma day_at_day_at (today : datetime) (o o' : Z) :
  day_at (day_at today o) o' = day_at today o'.
Proof.
  unfold day_at. destruct (_ord2ymd o) as [[y m] d].
  destruct (_ord2ymd o') as [[y' m'] d']. reflexivity.
Qed.

(** A loop of [get_calendar_context] over a week inside the range. *)
Lemma add_week_lines_in_range (today : datetime) (start : Z) (offsets : list Z) :
  1 <= start <= _MAXORDINAL ->
  Forall (fun i => 1 <= start + i <= _MAXORDINAL) offsets ->
  forall calendar_text,
    add_week_lines (day_at today start) offsets calendar_text
    = Returns (calendar_text
               ++ week_lines (map (fun i => day_at today (start + i)) offsets)).
Proof.
  intros Hs. induction 1 as [|i offsets Hi _ IH]; intros calendar_text.
  - unfold week_lines. cbn. now rewrite app_nil_r.
  - cbn [add_week_lines]. rewrite add_days_cases, (toordinal_day_at _ _ Hs).
    rewrite (range_true _ Hi), day_at_day_at, IH.
    unfold week_lines. cbn [map List.concat]. now rewrite <- app_assoc.
Qed.

(** A loop that meets a day outside the range raises. *)
Lemma add_week_lines_out_of_range (today : datetime) (start : Z)
    (offsets : list Z) :
  1 <= start <= _MAXORDINAL ->
  Exists (fun i => start + i <= 0 \/ _MAXORDINAL < start + i) offsets ->
  forall calendar_text,
    add_week_lines (day_at today start) offsets calendar_text
    = Raises overflow_error.
Proof.
  intros Hs. induction offsets as [|i offsets IH]; intros H calendar_text.
  - inversion H.
  - cbn [add_week_lines]. rewrite add_days_cases, (toordinal_day_at _ _ Hs).
    destruct ((0 <? start + i) && (start + i <=? _MAXORDINAL)) eqn:E;
      [|reflexivity].
    rewrite day_at_day_at. apply IH.
    inversion H as [? ? Hi|]; subst; [|assumption].
    rewrite (range_false _ Hi) in E. discriminate.
Qed.

(** The calendar text in closed form: 21 consecutive days from the
    Monday of the previous week. *)
Lemma calendar_text_of_in_range (today : datetime) :
  let monday := toordinal today - weekday today in
  8 <= monday -> monday + 13 <= _MAXORDINAL ->
  calendar_text_of today
  = Returns (calendar_layout today (week_of today (monday - 7))
               (week_of today monday) (week_of today (monday + 7))).
Proof.
  intros monday Hlo Hhi. unfold _MAXORDINAL in *.
  unfold calendar_text_of, sub_days. rewrite add_days_cases.
  replace (toordinal today + - weekday today) with monday by (subst monday; lia).
  rewrite range_true by (unfold _MAXORDINAL; lia).
  rewrite !add_days_cases, !toordinal_day_at by (unfold _MAXORDINAL; lia).
  rewrite !range_true by (unfold _MAXORDINAL; lia).
  rewrite !day_at_day_at.
  replace (monday + - (7)) with (monday - 7) by lia.
  rewrite add_week_lines_in_range;
    [|unfold _MAXORDINAL; lia
     |unfold range7, _MAXORDINAL; repeat constructor; lia].
  rewrite add_week_lines_in_range;
    [|unfold _MAXORDINAL; lia
     |unfold range7, _MAXORDINAL; repeat constructor; lia].
  rewrite add_week_lines_in_range;
    [|unfold _MAXORDINAL; lia
     |unfold range7, _MAXORDINAL; repeat constructor; lia].
  unfold calendar_layout, week_of. now rewrite <- !app_assoc.
Qed.

Lemma calendar_text_of_out_of_range (today : datetime) :
  let monday := toordinal today - weekday today in
  monday < 8 \/ _MAXORDINAL < monday + 13 ->
  calendar_text_of today = Raises overflow_error.
Proof.
  intros monday H. unfold _MAXORDINAL in *.
  unfold calendar_text_of, sub_days. rewrite add_days_cases.
  replace (toordinal today + - weekday today) with monday by (subst monday; lia).
  destruct (Z_le_gt_dec monday 0) as [H0|H0];
    [rewrite range_false by (unfold _MAXORDINAL; lia); reflexivity|].
  destruct (Z_lt_le_dec 3652059 monday) as [H1|H1];
    [rewrite range_false by (unfold _MAXORDINAL; lia); reflexivity|].
  rewrite range_true by (unfold _MAXORDINAL; lia).
  rewrite !add_days_cases, !toordinal_day_at by (unfold _MAXORDINAL; lia).
  replace (monday + - (7)) with (monday - 7) by lia.
  destruct (Z_lt_le_dec monday 8) as [H2|H2];
    [rewrite range_false by (unfold _MAXORDINAL; lia); reflexivity|].
  rewrite (range_true (monday - 7)) by (unfold _MAXORDINAL; lia).
  destruct (Z_lt_le_dec 3652059 (monday + 7)) as [H3|H3];
    [rewrite range_false by (unfold _MAXORDINAL; lia); reflexivity|].
  rewrite (range_true (monday + 7)) by (unfold _MAXORDINAL; lia).
  rewrite !day_at_day_at.
  rewrite add_week_lines_in_range;
    [|unfold _MAXORDINAL; lia
     |unfold range7, _MAXORDINAL; repeat constructor; lia].
  rewrite add_week_lines_in_range;
    [|unfold _MAXORDINAL; lia
     |unfold range7, _MAXORDINAL; repeat constructor; lia].
  apply add_week_lines_out_of_range; [unfold _MAXORDINAL; lia|].
  unfold range7, _MAXORDINAL. do 6 apply Exists_cons_tl. apply Exists_cons_hd. lia.
Qed.

Lemma nth_error_week_of (today : datetime) (start i : Z) :
  0 <= i < 7 ->
  nth_error (week_of today start) (Z.to_nat i)
  = Some (day_at today (start + i)).
Proof.
  intros H.
  assert (Hc : i = 0 \/ i = 1 \/ i = 2 \/ i = 3 \/ i = 4 \/ i = 5 \/ i = 6)
    by lia.
  repeat (destruct Hc as [->|Hc]); try subst i; reflexivity.
Qed.

(** X5.  On a valid date whose three weeks lie inside the range of
    [datetime], the calendar context lists 21 consecutive days, from the
    Monday of the previous week to the Sunday of the next week, and the
    entry of the current week at the index of today's weekday is today
    itself. *)
Theorem get_calendar_context_lists_today (w : world) (n : nat) :
  let now := clock w in
  let monday := toordinal now - weekday now in
  valid_date now = true ->
  8 <= monday -> monday + 13 <= _MAXORDINAL ->
  get_calendar_context w n
  = Run [] n
      (Returns (calendar_layout now (week_of now (monday - 7))
                  (week_of now monday) (week_of now (monday + 7))))
  /\ nth_error (week_of now monday) (Z.to_nat (weekday now)) = Some now.
Proof.
  intros now monday Hvalid Hlo Hhi. split.
  - unfold get_calendar_context, bind, datetime_now, lift.
    cbn [outcome trace calls app]. fold now.
    rewrite (calendar_text_of_in_range now Hlo Hhi). reflexivity.
  - rewrite (nth_error_week_of now monday (weekday now) (weekday_range now)).
    replace (monday + weekday now) with (toordinal now) by (subst monday; lia).
    now rewrite (day_at_toordinal now Hvalid).
Qed.

Lemma get_calendar_context_lists_today_witness :
  get_calendar_context (sample_world (Raises connection_error)) 0%nat
  = Run [] 0%nat
      (Returns (calendar_layout sample_now (week_of sample_now (739628 - 7))
                  (week_of sample_now 739628)
                  (week_of sample_now (739628 + 7))))
  /\ nth_error (week_of sample_now 739628) 2 = Some sample_now.
Proof.
  apply (get_calendar_context_lists_today
           (sample_world (Raises connection_error)) 0%nat);
    vm_compute; (reflexivity || discriminate).
Defined.

(** X6.  [get_calendar_context] raises exactly when one of the three
    weeks leaves the range of [datetime] (the Monday of the current week
    is before 0001-01-08 or after 9999-12-18), and what it raises is
    then [OverflowError]. *)
Theorem get_calendar_context_raises_iff (w : world) (n : nat)
    (e : py_exception) :
  let now := clock w in
  let monday := toordinal now - weekday now in
  outcome (get_calendar_context w n) = Raises e
  <-> e = overflow_error /\ (monday < 8 \/ _MAXORDINAL < monday + 13).
Proof.
  intros now monday.
  assert (Hrun : outcome (get_calendar_context w n) = calendar_text_of now).
  { unfold get_calendar_context, bind, datetime_now, lift.
    cbn [outcome trace calls app]. fold now.
    now destruct (calendar_text_of now). }
  rewrite Hrun.
  destruct (Z_lt_le_dec monday 8) as [H1|H1].
  - rewrite (calendar_text_of_out_of_range now (or_introl H1)).
    split; [intros H; injection H as <-; auto | intros [-> _]; reflexivity].
  - destruct (Z_lt_le_dec _MAXORDINAL (monday + 13)) as [H2|H2].
    + rewrite (calendar_text_of_out_of_range now (or_intror H2)).
      split; [intros H; injection H as <-; auto | intros [-> _]; reflexivity].
    + rewrite (calendar_text_of_in_range now H1 H2).
      split; [discriminate | intros [_ [H|H]]; fold monday in H; lia].
Qed.

Lemma get_calendar_context_raises_iff_witness :
  outcome (get_calendar_context
             (world_at (mk_datetime 9999 12 28 12 0 0 0)
                       (Raises connection_error)) 0%nat)
  = Raises overflow_error.
Proof.
  apply (get_calendar_context_raises_iff
           (world_at (mk_datetime 9999 12 28 12 0 0 0)
                     (Raises connection_error)) 0%nat overflow_error).
  split; [reflexivity|]. right. vm_compute. reflexivity.
Defined.

End CalendarExtras.

(* ------------------------------------------------------------------ *)
(** * Further properties: the handlers and the servers *)

Section HandlerExtras.
Import PyStr PyExc PyDatetime Bot.

(** X7.  A response with no choice, or whose first choice has no
    content, is handled like a failed call: the error is logged and the
    result is the one-item list with the text given. *)
Theorem parse_falls_back_on_malformed_response
    (user_message : str) (w : world) (n : nat) (calendar_context : str)
    (response : ChatCompletion) :
  calendar_text_of (clock w) = Returns calendar_context ->
  chat_completions_create w n (completion_request calendar_context user_message)
  = Returns response ->
  (choices response = []
   \/ exists rest, choices response = {| choice_content := None |} :: rest) ->
  exists e,
    parse_and_polish_message user_message w n
    = Run [CreateCompletion (completion_request calendar_context user_message)
             (Returns response);
           parse_error_line e]
          (S n) (Returns [user_message])
    /\ (e = index_error \/ e = no_strip_error).
Proof.
  intros Hcal Hc Hch. rewrite parse_and_polish_message_run, Hcal. cbv zeta.
  rewrite Hc. destruct Hch as [->|[rest ->]].
  - exists index_error. auto.
  - exists no_strip_error. auto.
Qed.

Lemma parse_falls_back_on_malformed_response_witness :
  exists e,
    parse_and_polish_message (message_text sample_message)
      (sample_world (Returns {| choices := [] |})) 1
    = Run [CreateCompletion
             (completion_request sample_context (message_text sample_message))
             (Returns {| choices := [] |});
           parse_error_line e]
          2 (Returns [message_text sample_message])
    /\ (e = index_error \/ e = no_strip_error).
Proof.
  apply (parse_falls_back_on_malformed_response
           (message_text sample_message)
           (sample_world (Returns {| choices := [] |})) 1 sample_context
           {| choices := [] |}).
  - vm_compute. reflexivity.
  - reflexivity.
  - left. reflexivity.
Defined.

(** X8.  Once the calendar context is built,
    [parse_and_polish_message] makes exactly one outside call, to the
    completion service, logs at most, and returns a list whatever the
    service does; when the calendar context raises, it makes no call and
    raises the same exception. *)
Theorem parse_and_polish_message_calls_once
    (user_message : str) (w : world) (n : nat) :
  (forall calendar_context,
      calendar_text_of (clock w) = Returns calendar_context ->
      exists r logs reminders,
        parse_and_polish_message user_message w n
        = Run (CreateCompletion
                 (completion_request calendar_context user_message) r :: logs)
              (S n) (Returns reminders)
        /\ r = chat_completions_create w n
                 (completion_request calendar_context user_message)
        /\ forallb is_log logs = true)
  /\ (forall e,
        calendar_text_of (clock w) = Raises e ->
        parse_and_polish_message user_message w n = Run [] n (Raises e)).
Proof.
  split.
  - intros calendar_context Hcal.
    rewrite parse_and_polish_message_run, Hcal. cbv zeta.
    destruct (chat_completions_create w n _) as [response|e] eqn:Hc.
    + destruct (choices response) as [|c rest].
      * exists (Returns response), [parse_error_line index_error], [user_message].
        auto.
      * destruct (choice_content c) as [text|].
        -- exists (Returns response), [], (split_reminders (strip text)). auto.
        -- exists (Returns response), [parse_error_line no_strip_error],
             [user_message]. auto.
    + exists (Raises e), [parse_error_line e], [user_message]. auto.
  - intros e Hcal. now rewrite parse_and_polish_message_run, Hcal.
Qed.

Lemma parse_and_polish_message_calls_once_witness :
  exists r logs reminders,
    parse_and_polish_message (message_text sample_message)
      (sample_world (Raises connection_error)) 1
    = Run (CreateCompletion
             (completion_request sample_context (message_text sample_message))
             r :: logs)
          2 (Returns reminders)
    /\ r = Raises connection_error
    /\ forallb is_log logs = true.
Proof.
  apply (proj1 (parse_and_polish_message_calls_once
                  (message_text sample_message)
                  (sample_world (Raises connection_error)) 1)
               sample_context).
  vm_compute. reflexivity.
Defined.

(** X9.  When the completion service fails and the platform accepts
    the send, [handle_message] sends exactly one message: the original
    text, unchanged, with the keyboard, to the chat it came from. *)
Theorem handle_message_returns_text_when_service_fails
    (w : world) (update : Update) (m : Message) (calendar_context : str)
    (e : py_exception) :
  update_message update = Some m ->
  calendar_text_of (clock w) = Returns calendar_context ->
  chat_completions_create w 1
    (completion_request calendar_context (message_text m)) = Raises e ->
  sends_accepted w ->
  let r := exec (handle_message update) w in
  outcome r = Returns tt
  /\ filter is_send (trace r)
     = [SendMessage (chat_id m) (message_text m) (Some keyboard) (Returns tt)].
Proof.
  intros Hm Hcal Hc Hw r. subst r. unfold exec.
  rewrite (handle_message_run update m w 0 Hm). cbv zeta.
  rewrite parse_and_polish_message_run, Hcal. cbv zeta. rewrite Hc.
  cbn [outcome trace calls].
  rewrite (send_reminders_run _ _ _ Hw). cbn [outcome trace map].
  rewrite !filter_app, deletion_events_no_send. split; reflexivity.
Qed.

Lemma handle_message_returns_text_when_service_fails_witness :
  let r := exec (handle_message (message_update sample_message))
                (sample_world (Raises connection_error)) in
  outcome r = Returns tt
  /\ filter is_send (trace r)
     = [SendMessage 7 (message_text sample_message) (Some keyboard)
          (Returns tt)].
Proof.
  apply (handle_message_returns_text_when_service_fails
           (sample_world (Raises connection_error))
           (message_update sample_message) sample_message sample_context
           connection_error).
  - reflexivity.
  - vm_compute. reflexivity.
  - reflexivity.
  - intros n chat text reply_markup. reflexivity.
Defined.

Lemma send_reminders_stays_in_chat (chat message : Z) (reminders : list str)
    (w : world) :
  forall n, Forall (stays_in_chat chat message)
                   (trace (send_reminders chat reminders w n)).
Proof.
  induction reminders as [|r rs IH]; intros n; [constructor|].
  unfold send_reminders in *. cbn [for_each]. unfold bind, send_message.
  cbn [outcome trace calls].
  destruct (bot_send_message w n chat r (Some keyboard)).
  - cbn [trace app]. constructor; [split; reflexivity | apply IH].
  - cbn [trace]. constructor; [split; reflexivity | constructor].
Qed.

(** X10.  In every world, [handle_message] sends to no other chat than
    the one of the message, sends nothing without the keyboard, and
    deletes no other message than the original. *)
Theorem handle_message_stays_in_chat
    (w : world) (update : Update) (m : Message) :
  update_message update = Some m ->
  Forall (stays_in_chat (chat_id m) (message_id m))
         (trace (exec (handle_message update) w)).
Proof.
  intros Hm. unfold exec. rewrite (handle_message_run update m w 0 Hm).
  cbv zeta.
  assert (Hd : Forall (stays_in_chat (chat_id m) (message_id m))
                 (deletion_events delete_error_line (chat_id m) (message_id m)
                    (bot_delete_message w 0 (chat_id m) (message_id m)))).
  { destruct (bot_delete_message w 0 _ _); repeat constructor. }
  assert (Hp : Forall (stays_in_chat (chat_id m) (message_id m))
                 (trace (parse_and_polish_message (message_text m) w 1))).
  { parse_cases; repeat constructor. }
  destruct (outcome (parse_and_polish_message (message_text m) w 1));
    cbn [trace]; rewrite ?Forall_app; repeat split; auto.
  apply send_reminders_stays_in_chat.
Qed.

Lemma handle_message_stays_in_chat_witness :
  Forall (stays_in_chat 7 42)
         (trace (exec (handle_message (message_update sample_message))
                      (sample_world (Returns (completion_of sample_blob))))).
Proof.
  exact (handle_message_stays_in_chat
           (sample_world (Returns (completion_of sample_blob)))
           (message_update sample_message) sample_message eq_refl).
Defined.

Lemma send_reminders_stops (chat : Z) (w : world) (pre : list str) (r : str)
    (post : list str) (e : py_exception) :
  Forall (fun text => forall k,
            bot_send_message w k chat text (Some keyboard) = Returns tt) pre ->
  (forall k, bot_send_message w k chat r (Some keyboard) = Raises e) ->
  forall n,
    send_reminders chat (pre ++ r :: post) w n
    = Run (map (fun reminder =>
                  SendMessage chat reminder (Some keyboard) (Returns tt)) pre
           ++ [SendMessage chat r (Some keyboard) (Raises e)])
          (S (n + List.length pre)) (Raises e).
Proof.
  intros Hpre Hr. induction Hpre as [|p pre Hp _ IH]; intros n.
  - unfold send_reminders. cbn [app for_each]. unfold bind, send_message.
    cbn [outcome trace calls]. rewrite Hr. cbn [map app List.length].
    now rewrite Nat.add_0_r.
  - unfold send_reminders in *. cbn [app for_each].
    erewrite bind_returns
      by (unfold send_message; rewrite Hp; reflexivity).
    rewrite IH. cbn [outcome trace calls map app List.length].
    f_equal; lia.
Qed.

(** X11.  When the platform refuses the send of a reminder, the loop
    stops there: the reminders before it were sent, the refused one was
    attempted, the later ones are not, and the exception leaves the
    handler; the original message was deleted first. *)
Theorem handle_message_stops_at_refused_send
    (w : world) (update : Update) (m : Message) (pre : list str) (r : str)
    (post : list str) (e : py_exception) :
  update_message update = Some m ->
  outcome (parse_and_polish_message (message_text m) w 1)
  = Returns (pre ++ r :: post) ->
  Forall (fun text => forall k,
            bot_send_message w k (chat_id m) text (Some keyboard) = Returns tt)
         pre ->
  (forall k, bot_send_message w k (chat_id m) r (Some keyboard) = Raises e) ->
  let run := exec (handle_message update) w in
  outcome run = Raises e
  /\ filter is_send (trace run)
     = map (fun reminder =>
              SendMessage (chat_id m) reminder (Some keyboard) (Returns tt)) pre
       ++ [SendMessage (chat_id m) r (Some keyboard) (Raises e)]
  /\ hd_error (trace run)
     = Some (DeleteMessage (chat_id m) (message_id m)
               (bot_delete_message w 0 (chat_id m) (message_id m))).
Proof.
  intros Hm Hp Hpre Hr run. subst run. unfold exec.
  rewrite (handle_message_run update m w 0 Hm). cbv zeta. rewrite Hp.
  rewrite (send_reminders_stops _ _ _ _ _ _ Hpre Hr).
  cbn [outcome trace]. split; [reflexivity|]. split.
  - rewrite !filter_app, deletion_events_no_send, parse_trace_no_send.
    cbn [app filter is_send]. f_equal.
    apply filter_all. apply forallb_forall. intros ev Hev.
    apply in_map_iff in Hev. destruct Hev as [? [<- _]]. reflexivity.
  - destruct (bot_delete_message w 0 (chat_id m) (message_id m)) as [[]|];
      reflexivity.
Qed.

Lemma handle_message_stops_at_refused_send_witness :
  let w := refusing_world (Returns (completion_of sample_blob))
                          (lit "Order the meds") in
  let run := exec (handle_message (message_update sample_message)) w in
  outcome run = Raises retry_after
  /\ filter is_send (trace run)
     = [SendMessage 7 (lit "Order the meds") (Some keyboard)
          (Raises retry_after)]
  /\ hd_error (trace run) = Some (DeleteMessage 7 42 (Returns tt)).
Proof.
  apply (handle_message_stops_at_refused_send
           (refusing_world (Returns (completion_of sample_blob))
                           (lit "Order the meds"))
           (message_update sample_message) sample_message []
           (lit "Order the meds")
           [lit "Make tax report" ++ newline ++ newline
            ++ lit "do by April 15, 2026"] retry_after).
  - reflexivity.
  - vm_compute. reflexivity.
  - constructor.
  - intros k. reflexivity.
Defined.

(** X12.  When the calendar context cannot be built (a week outside
    the range of [datetime]), [handle_message] has attempted the
    deletion of the original message and then raises [OverflowError]:
    no completion call, no send. *)
Theorem handle_message_raises_when_calendar_overflows
    (w : world) (update : Update) (m : Message) :
  update_message update = Some m ->
  let now := clock w in
  let monday := (toordinal now - weekday now)%Z in
  (monday < 8 \/ _MAXORDINAL < monday + 13)%Z ->
  exec (handle_message update) w
  = Run (deletion_events delete_error_line (chat_id m) (message_id m)
           (bot_delete_message w 0 (chat_id m) (message_id m)))
        1 (Raises overflow_error).
Proof.
  intros Hm now monday Hout. unfold exec.
  rewrite (handle_message_run update m w 0 Hm). cbv zeta.
  rewrite parse_and_polish_message_run.
  rewrite (calendar_text_of_out_of_range (clock w) Hout).
  cbn [outcome trace calls]. now rewrite app_nil_r.
Qed.

Lemma handle_message_raises_when_calendar_overflows_witness :
  exec (handle_message (message_update sample_message))
       (world_at (mk_datetime 9999 12 28 12 0 0 0)
                 (Returns (completion_of sample_blob)))
  = Run [DeleteMessage 7 42 (Returns tt)] 1 (Raises overflow_error).
Proof.
  apply (handle_message_raises_when_calendar_overflows
           (world_at (mk_datetime 9999 12 28 12 0 0 0)
                     (Returns (completion_of sample_blob)))
           (message_update sample_message) sample_message eq_refl).
  right. vm_compute. reflexivity.
Defined.

End HandlerExtras.

Section CallbackExtras.
Import PyStr PyExc PyDatetime Bot.

(** X13.  When the acknowledgement of a callback query raises,
    [button_callback] raises the same exception and attempts no
    deletion: the acknowledgement is outside the [try]. *)
Theorem button_callback_stops_when_answer_fails
    (w : world) (n : nat) (query : str) (data : option str)
    (message : option Message) (e : py_exception) :
  bot_answer_callback_query w n query = Raises e ->
  button_callback (callback_update query data message) w n
  = Run [AnswerCallbackQuery query (Raises e)] (S n) (Raises e).
Proof.
  intros Ha. unfold button_callback, callback_update.
  cbn [update_callback_query].
  erewrite bind_returns by reflexivity. cbn [app query_id query_message].
  erewrite bind_raises by (unfold answer; rewrite Ha; reflexivity).
  reflexivity.
Qed.

Lemma button_callback_stops_when_answer_fails_witness :
  button_callback
    (callback_update (lit "q1") (Some (lit "done")) (Some sample_message))
    unanswering_world 0
  = Run [AnswerCallbackQuery (lit "q1") (Raises bad_request)] 1
        (Raises bad_request).
Proof.
  apply button_callback_stops_when_answer_fails. reflexivity.
Defined.

(** X14.  On a callback query that carries no message,
    [button_callback] acknowledges, logs the [AttributeError] of the
    deletion and returns normally, with no deletion attempt. *)
Theorem button_callback_without_message
    (w : world) (n : nat) (query : str) (data : option str) :
  bot_answer_callback_query w n query = Returns tt ->
  button_callback (callback_update query data None) w n
  = Run [AnswerCallbackQuery query (Returns tt);
         LogError (button_error_line ++ exc_str no_delete_error)]
        (S n) (Returns tt).
Proof.
  intros Ha. unfold button_callback, callback_update.
  cbn [update_callback_query].
  erewrite bind_returns by reflexivity. cbn [app query_id query_message].
  erewrite bind_returns by (unfold answer; rewrite Ha; reflexivity).
  erewrite try_except_raises
    by (unfold message_delete; erewrite bind_raises by reflexivity;
        reflexivity).
  reflexivity.
Qed.

Lemma button_callback_without_message_witness :
  button_callback (callback_update (lit "q1") (Some (lit "done")) None)
                  (sample_world (Raises connection_error)) 0
  = Run [AnswerCallbackQuery (lit "q1") (Returns tt);
         LogError (button_error_line ++ exc_str no_delete_error)]
        1 (Returns tt).
Proof.
  apply button_callback_without_message. reflexivity.
Defined.

End CallbackExtras.

Section RoutingExtras.
Import PyStr PyExc PyDatetime Bot.

(** X15.  A message that starts with the [/start] command is routed to
    [start_command], which makes one outside call: it sends the welcome
    text to the chat of the message, without a keyboard.  Nothing is
    deleted and the completion service is not called. *)
Theorem start_command_only_welcomes
    (bot_username : str) (w : world) (m : Message) :
  filters_COMMAND m = true ->
  filters_TEXT m = true ->
  command_matches bot_username (lit "start") m = true ->
  select_handler bot_username start_bot (message_update m)
  = Some (CommandHandler (lit "start") start_command)
  /\ exec (start_command (message_update m)) w
     = Run [SendMessage (chat_id m) welcome_text None
              (bot_send_message w 0 (chat_id m) welcome_text None)]
           1 (bot_send_message w 0 (chat_id m) welcome_text None).
Proof.
  intros Hc Ht Hm. split.
  - unfold select_handler, start_bot. cbn [find check_update].
    cbn [update_message message_update].
    unfold filters_TEXT in Ht. rewrite Hc, Ht, Hm. reflexivity.
  - unfold exec, start_command. cbn [update_message message_update].
    erewrite bind_returns by reflexivity. reflexivity.
Qed.

Lemma start_command_only_welcomes_witness :
  select_handler (lit "reminder_bot") start_bot (message_update start_message)
  = Some (CommandHandler (lit "start") start_command)
  /\ exec (start_command (message_update start_message))
          (sample_world (Raises connection_error))
     = Run [SendMessage 7 welcome_text None (Returns tt)] 1 (Returns tt).
Proof.
  apply (start_command_only_welcomes (lit "reminder_bot")
           (sample_world (Raises connection_error)) start_message);
    reflexivity.
Defined.

(** X16.  A message that starts with a command other than [/start],
    or that has no text, matches no handler: the update is dropped with
    no outside call and no log line. *)
Theorem unhandled_messages_are_dropped
    (bot_username : str) (w : world) (m : Message) :
  (filters_COMMAND m = true
   /\ command_matches bot_username (lit "start") m = false)
  \/ filters_TEXT m = false ->
  select_handler bot_username start_bot (message_update m) = None
  /\ exec (process_update bot_username start_bot (message_update m)) w
     = Run [] 0 (Returns tt).
Proof.
  intros H.
  assert (Hs : select_handler bot_username start_bot (message_update m) = None).
  { unfold select_handler, start_bot. cbn [find check_update].
    cbn [update_message message_update update_callback_query].
    destruct H as [[Hc Hm]|Ht].
    - rewrite Hc, Hm, andb_false_r. cbn [negb andb]. now rewrite andb_false_r.
    - unfold filters_TEXT in *. rewrite Ht.
      now rewrite andb_false_r. }
  split; [exact Hs|]. unfold exec, process_update. now rewrite Hs.
Qed.

Lemma unhandled_messages_are_dropped_witness :
  select_handler (lit "reminder_bot") start_bot (message_update help_message)
  = None
  /\ exec (process_update (lit "reminder_bot") start_bot
             (message_update help_message))
          (sample_world (Raises connection_error))
     = Run [] 0 (Returns tt).
Proof.
  apply (unhandled_messages_are_dropped (lit "reminder_bot")
           (sample_world (Raises connection_error)) help_message).
  left. split; reflexivity.
Defined.

End RoutingExtras.

Section HealthExtras.
Import PyStr PyExc PyDatetime Bot.



End HealthExtras.
